(** * ARCH-REPO browser client: submit, poll, fetch, render, export

    The repository holds four near-duplicate variants of one single-page
    client.  Each variant is embedded below in a module of its own:

    - [Guarded]  : frontend/main.js, first script  (lines 1-154)
    - [Plain]    : frontend/main.js, second script (lines 155-211)
    - [JobId]    : frontend/main.js, third script  (lines 212-222)
    - [DotPoll]  : the unnamed script part_000

    The scripts are asynchronous JavaScript.  They are embedded in a small
    state-and-exception monad over a [World]: the page (the DOM nodes the
    scripts touch and the module-level variables), the answers the network
    is going to give, the queue of callbacks the browser still has to run,
    and a log of the effects an observer can see (requests, alerts,
    downloads, ...).  [await] is sequential composition; callbacks handed
    to the browser ([setTimeout], promise reactions, [onload]) are queued
    and run later by [event_loop]. *)

From Stdlib Require Import List String Ascii Bool Arith Lia.
From Stdlib Require Import DecimalString.
Import ListNotations.
Open Scope string_scope.
Set Warnings "-register-all".

(** ** JavaScript values *)

(** A number.  The scripts interpolate a number in a template literal and
    test it with [!], and do nothing else with one: it is given by what
    [ToString] prints for it ("42", "0.5", "1e+21") and by whether it is
    one of the numbers that count as false (0, -0, NaN). *)
Record JsNumber : Type := { num_printed : string; num_falsy : bool }.

(** Values decoded from a JSON body, plus [undefined], which a property
    read can produce. *)
Inductive JsVal : Type :=
| VUndefined
| VNull
| VBool (b : bool)
| VNum (n : JsNumber)
| VStr (s : string)
| VArr (items : list JsVal)
| VObj (fields : list (string * JsVal)).

Record JsError : Type := { err_name : string; err_message : string }.

Definition Error (msg : string) : JsError :=
  {| err_name := "Error"; err_message := msg |}.
Definition TypeError (msg : string) : JsError :=
  {| err_name := "TypeError"; err_message := msg |}.
Definition SyntaxError (msg : string) : JsError :=
  {| err_name := "SyntaxError"; err_message := msg |}.
Definition URIError (msg : string) : JsError :=
  {| err_name := "URIError"; err_message := msg |}.

Definition is_empty (s : string) : bool :=
  match s with EmptyString => true | String _ _ => false end.

(** [Error.prototype.toString]. *)
Definition err_toString (e : JsError) : string :=
  if is_empty (err_name e) then err_message e
  else if is_empty (err_message e) then err_name e
  else err_name e ++ ": " ++ err_message e.

(** [ToBoolean]: what [!v] and [if (v)] look at. *)
Definition truthy (v : JsVal) : bool :=
  match v with
  | VUndefined | VNull => false
  | VBool b => b
  | VNum n => negb (num_falsy n)
  | VStr s => negb (is_empty s)
  | VArr _ | VObj _ => true
  end.

Definition nat_to_string (n : nat) : string :=
  NilEmpty.string_of_uint (Nat.to_uint n).

(** [ToString], as a template literal applies it to an interpolated value. *)
Fixpoint toString (v : JsVal) : string :=
  match v with
  | VUndefined => "undefined"
  | VNull => "null"
  | VBool true => "true"
  | VBool false => "false"
  | VNum n => num_printed n
  | VStr s => s
  | VArr items =>
      (fix join (l : list JsVal) : string :=
         match l with
         | [] => ""
         | x :: rest =>
             let sx := match x with
                       | VUndefined | VNull => ""
                       | _ => toString x
                       end in
             match rest with
             | [] => sx
             | _ :: _ => sx ++ "," ++ join rest
             end
         end) items
  | VObj _ => "[object Object]"
  end.

Fixpoint lookup_field (k : string) (fields : list (string * JsVal)) : JsVal :=
  match fields with
  | [] => VUndefined
  | (k', v) :: rest => if String.eqb k k' then v else lookup_field k rest
  end.

(** Reading the property [k] (one of [job_id], [ready]) of a value: a
    [TypeError] on [null] and [undefined], a field of an object, and
    [undefined] on every other value. *)
Definition getProp (v : JsVal) (k : string) : JsError + JsVal :=
  match v with
  | VUndefined =>
      inl (TypeError ("Cannot read properties of undefined (reading '" ++ k ++ "')"))
  | VNull =>
      inl (TypeError ("Cannot read properties of null (reading '" ++ k ++ "')"))
  | VObj fields => inr (lookup_field k fields)
  | _ => inr VUndefined
  end.

(** ** Strings: [trim], [encodeURIComponent], [JSON.stringify]

    A JavaScript string is represented by the UTF-8 bytes of its code
    points.  A surrogate code unit that is not part of a pair
    (U+D800..U+DFFF) is written the same way, as the three bytes
    ED A0..BF 80..BF, which the UTF-8 form of a code point never holds. *)

Definition byte (n : nat) : ascii := ascii_of_nat n.

Fixpoint bytes (l : list nat) : string :=
  match l with
  | [] => EmptyString
  | n :: rest => String (byte n) (bytes rest)
  end.

(** The code points [String.prototype.trim] removes (WhiteSpace and
    LineTerminator of ECMAScript), as UTF-8 byte sequences. *)
Definition js_whitespace : list (list nat) :=
  [ [9]; [10]; [11]; [12]; [13]; [32];
    [194; 160];
    [225; 154; 128];
    [226; 128; 128]; [226; 128; 129]; [226; 128; 130]; [226; 128; 131];
    [226; 128; 132]; [226; 128; 133]; [226; 128; 134]; [226; 128; 135];
    [226; 128; 136]; [226; 128; 137]; [226; 128; 138];
    [226; 128; 168]; [226; 128; 169]; [226; 128; 175];
    [226; 129; 159];
    [227; 128; 128];
    [239; 187; 191] ].

Fixpoint strip_prefix (p s : string) : option string :=
  match p with
  | EmptyString => Some s
  | String a p' =>
      match s with
      | EmptyString => None
      | String b s' => if Ascii.eqb a b then strip_prefix p' s' else None
      end
  end.

Fixpoint strip_any (ps : list string) (s : string) : option string :=
  match ps with
  | [] => None
  | p :: rest =>
      match strip_prefix p s with
      | Some s' => Some s'
      | None => strip_any rest s
      end
  end.

Fixpoint strip_all (fuel : nat) (ps : list string) (s : string) : string :=
  match fuel with
  | O => s
  | S fuel' =>
      match strip_any ps s with
      | Some s' => strip_all fuel' ps s'
      | None => s
      end
  end.

Fixpoint string_rev (s : string) : string :=
  match s with
  | EmptyString => EmptyString
  | String a s' => string_rev s' ++ String a EmptyString
  end.

Definition trimStart (s : string) : string :=
  strip_all (String.length s) (map bytes js_whitespace) s.

Definition trimEnd (s : string) : string :=
  string_rev
    (strip_all (String.length s)
       (map (fun l => bytes (rev l)) js_whitespace) (string_rev s)).

Definition trim (s : string) : string := trimEnd (trimStart s).

(** The characters [encodeURIComponent] leaves alone:
    [A-Z a-z 0-9 - _ . ! ~ * ' ( )]. *)
Definition uri_unreserved (c : ascii) : bool :=
  let n := nat_of_ascii c in
  (((65 <=? n) && (n <=? 90)) || ((97 <=? n) && (n <=? 122))
   || ((48 <=? n) && (n <=? 57))
   || existsb (Nat.eqb n) [45; 95; 46; 33; 126; 42; 39; 40; 41])%nat.

Definition digit_of (alphabet : string) (n : nat) : ascii :=
  match String.get n alphabet with
  | Some c => c
  | None => "0"%char
  end.

Definition hex_digit : nat -> ascii := digit_of "0123456789ABCDEF".
Definition hex_digit_lower : nat -> ascii := digit_of "0123456789abcdef".

Definition percent_encode (c : ascii) : string :=
  let n := nat_of_ascii c in
  String "%"%char (String (hex_digit (n / 16)) (String (hex_digit (n mod 16)) "")).

(** Every byte of the UTF-8 form that is not unreserved becomes [%XX]. *)
Fixpoint uri_encode (s : string) : string :=
  match s with
  | EmptyString => EmptyString
  | String c rest =>
      (if uri_unreserved c then String c "" else percent_encode c)
        ++ uri_encode rest
  end.

(** The first two bytes of an unpaired surrogate: ED, then A0..BF. *)
Definition surrogate_lead (a b : ascii) : bool :=
  (Nat.eqb (nat_of_ascii a) 237
   && (160 <=? nat_of_ascii b) && (nat_of_ascii b <=? 191))%nat.

Fixpoint lone_surrogate (s : string) : bool :=
  match s with
  | EmptyString => false
  | String a rest =>
      match rest with
      | EmptyString => false
      | String b _ => surrogate_lead a b || lone_surrogate rest
      end
  end.

(** [encodeURIComponent]: a [URIError] on a string with an unpaired
    surrogate, the percent-encoding of the string otherwise. *)
Definition encodeURIComponent (s : string) : JsError + string :=
  if lone_surrogate s then inl (URIError "URI malformed")
  else inr (uri_encode s).

(** [QuoteJSONString]: the escapes of [JSON.stringify] inside a string. *)
Definition json_escape_char (c : ascii) : string :=
  let n := nat_of_ascii c in
  if Nat.eqb n 34 then bytes [92; 34]
  else if Nat.eqb n 92 then bytes [92; 92]
  else if Nat.eqb n 8 then "\b"
  else if Nat.eqb n 12 then "\f"
  else if Nat.eqb n 10 then "\n"
  else if Nat.eqb n 13 then "\r"
  else if Nat.eqb n 9 then "\t"
  else if (n <? 32)%nat then
    "\u00" ++ String (hex_digit_lower (n / 16))
                (String (hex_digit_lower (n mod 16)) "")
  else String c "".

(** An unpaired surrogate ED b c is the code unit
    D000 + (b - 80) * 40 + (c - 80) (in hexadecimal), written [\udXXX]. *)
Definition json_escape_surrogate (b c : ascii) : string :=
  let v := (nat_of_ascii b - 128) * 64 + (nat_of_ascii c - 128) in
  "\ud" ++ String (hex_digit_lower (v / 256))
             (String (hex_digit_lower ((v / 16) mod 16))
                (String (hex_digit_lower (v mod 16)) "")).

Fixpoint json_escape (s : string) : string :=
  match s with
  | EmptyString => EmptyString
  | String a rest =>
      match rest with
      | String b (String c rest') =>
          if surrogate_lead a b
          then json_escape_surrogate b c ++ json_escape rest'
          else json_escape_char a ++ json_escape rest
      | _ => json_escape_char a ++ json_escape rest
      end
  end.

Definition json_quote (s : string) : string :=
  bytes [34] ++ json_escape s ++ bytes [34].

(** [JSON.stringify({ repo_url: repo })], the only use in the scripts. *)
Definition JSON_stringify_repo_url (repo : string) : string :=
  "{" ++ json_quote "repo_url" ++ ":" ++ json_quote repo ++ "}".

(** ** The page, the browser and the network *)

(** A DOM element: its identity and its serialization. *)
Record Element : Type := { node_id : nat; outerHTML : string }.

Record Blob : Type := { blob_data : string; blob_type : string }.

Record Image : Type := { img_source : Blob; img_width : nat; img_height : nat }.

Record Request : Type := {
  req_method : string;
  req_url : string;
  req_headers : list (string * string);
  req_body : option string
}.

(** A response: [body_json] is what [res.json()] decodes, [None] when the
    body is not JSON; [body_text] is what [res.text()] gives. *)
Record Response : Type := {
  status : nat;
  body_text : string;
  body_json : option JsVal;
  content_type : string
}.

(** [res.ok]: the status is in the range 200-299. *)
Definition ok (r : Response) : bool :=
  ((200 <=? status r) && (status r <=? 299))%nat.

(** How a [fetch] ends: never, with a rejection, or with a response. *)
Inductive FetchOutcome : Type :=
| Unanswered
| NetworkError
| Reply (r : Response).

(** The closures the scripts hand to the browser, defunctionalized. *)
Inductive Callback : Type :=
| CbPoll (job : JsVal)
    (* [() => poll(job)], given to [setTimeout] *)
| CbSvgSettled (r : JsError + Element)
    (* [.then(svg => ...).catch(err => ...)] of [renderDot] *)
| CbImageSettled (r : JsError + string)
    (* [.then(img => ...)] of part_000's [downloadPNG] *)
| CbImgOnload (img : Image) (url : nat)
    (* [img.onload] of main.js's [downloadPNG] *)
| CbToBlob (blob : option Blob) (url : nat).
    (* the callback given to [canvas.toBlob] *)

Inductive Task : Type :=
| Timeout (ms : nat) (cb : Callback)
| Reaction (cb : Callback).

Definition callback_of (t : Task) : Callback :=
  match t with Timeout _ cb => cb | Reaction cb => cb end.

Inductive Event : Type :=
| EvFetch (req : Request) (out : FetchOutcome)
| EvAlert (msg : string)
| EvConsoleError (e : JsError)
| EvRender (arg : JsVal)
| EvDownload (name : string) (b : Blob)
| EvUncaught (e : JsError).

(** What the scripts use of the third-party layout library and of the
    browser's codecs.  These are functions of their input. *)
Record Platform : Type := {
  (* [Viz.renderSVGElement]: the element's markup, or the rejection *)
  viz_svg : string -> JsError + string;
  (* [Viz.renderImageElement]: the [src] of the image, or the rejection *)
  viz_image : string -> JsError + string;
  (* [XMLSerializer.serializeToString] of an element given by its markup *)
  xml_serialize : string -> string;
  (* decoding a blob set as [img.src]; [None] when it does not load *)
  image_size : Blob -> option (nat * nat);
  (* [canvas.toBlob] after [drawImage(img, 0, 0)]; [None] is a null blob *)
  canvas_png : Image -> option Blob
}.

Record World : Type := {
  (* the page *)
  repo_value : string;            (* value of the input #repo *)
  status_text : string;           (* innerText of #status *)
  out_text : string;              (* textContent of #out *)
  diagram : list Element;         (* children of #diagram *)
  body_appended : list nat;       (* nodes scripts appended to document.body *)
  (* module-level variables *)
  currentSVG : option Element;    (* [null] is [None] *)
  currentDot : string;
  (* the browser *)
  platform : Platform;
  next_id : nat;                  (* next fresh node or object-URL id *)
  object_urls : list (nat * Blob);
  tasks : list Task;              (* callbacks not yet run *)
  network : list FetchOutcome;    (* outcomes of the fetches to come *)
  (* what an observer has seen, most recent first *)
  events : list Event
}.

Definition set_status_text (x : string) (w : World) : World :=
  {| repo_value := repo_value w ;
     status_text := x ;
     out_text := out_text w ;
     diagram := diagram w ;
     body_appended := body_appended w ;
     currentSVG := currentSVG w ;
     currentDot := currentDot w ;
     platform := platform w ;
     next_id := next_id w ;
     object_urls := object_urls w ;
     tasks := tasks w ;
     network := network w ;
     events := events w |}.

Definition set_out_text (x : string) (w : World) : World :=
  {| repo_value := repo_value w ;
     status_text := status_text w ;
     out_text := x ;
     diagram := diagram w ;
     body_appended := body_appended w ;
     currentSVG := currentSVG w ;
     currentDot := currentDot w ;
     platform := platform w ;
     next_id := next_id w ;
     object_urls := object_urls w ;
     tasks := tasks w ;
     network := network w ;
     events := events w |}.

Definition set_diagram (x : list Element) (w : World) : World :=
  {| repo_value := repo_value w ;
     status_text := status_text w ;
     out_text := out_text w ;
     diagram := x ;
     body_appended := body_appended w ;
     currentSVG := currentSVG w ;
     currentDot := currentDot w ;
     platform := platform w ;
     next_id := next_id w ;
     object_urls := object_urls w ;
     tasks := tasks w ;
     network := network w ;
     events := events w |}.

Definition set_body_appended (x : list nat) (w : World) : World :=
  {| repo_value := repo_value w ;
     status_text := status_text w ;
     out_text := out_text w ;
     diagram := diagram w ;
     body_appended := x ;
     currentSVG := currentSVG w ;
     currentDot := currentDot w ;
     platform := platform w ;
     next_id := next_id w ;
     object_urls := object_urls w ;
     tasks := tasks w ;
     network := network w ;
     events := events w |}.

Definition set_currentSVG (x : option Element) (w : World) : World :=
  {| repo_value := repo_value w ;
     status_text := status_text w ;
     out_text := out_text w ;
     diagram := diagram w ;
     body_appended := body_appended w ;
     currentSVG := x ;
     currentDot := currentDot w ;
     platform := platform w ;
     next_id := next_id w ;
     object_urls := object_urls w ;
     tasks := tasks w ;
     network := network w ;
     events := events w |}.

Definition set_currentDot (x : string) (w : World) : World :=
  {| repo_value := repo_value w ;
     status_text := status_text w ;
     out_text := out_text w ;
     diagram := diagram w ;
     body_appended := body_appended w ;
     currentSVG := currentSVG w ;
     currentDot := x ;
     platform := platform w ;
     next_id := next_id w ;
     object_urls := object_urls w ;
     tasks := tasks w ;
     network := network w ;
     events := events w |}.

Definition set_next_id (x : nat) (w : World) : World :=
  {| repo_value := repo_value w ;
     status_text := status_text w ;
     out_text := out_text w ;
     diagram := diagram w ;
     body_appended := body_appended w ;
     currentSVG := currentSVG w ;
     currentDot := currentDot w ;
     platform := platform w ;
     next_id := x ;
     object_urls := object_urls w ;
     tasks := tasks w ;
     network := network w ;
     events := events w |}.

Definition set_object_urls (x : list (nat * Blob)) (w : World) : World :=
  {| repo_value := repo_value w ;
     status_text := status_text w ;
     out_text := out_text w ;
     diagram := diagram w ;
     body_appended := body_appended w ;
     currentSVG := currentSVG w ;
     currentDot := currentDot w ;
     platform := platform w ;
     next_id := next_id w ;
     object_urls := x ;
     tasks := tasks w ;
     network := network w ;
     events := events w |}.

Definition set_tasks (x : list Task) (w : World) : World :=
  {| repo_value := repo_value w ;
     status_text := status_text w ;
     out_text := out_text w ;
     diagram := diagram w ;
     body_appended := body_appended w ;
     currentSVG := currentSVG w ;
     currentDot := currentDot w ;
     platform := platform w ;
     next_id := next_id w ;
     object_urls := object_urls w ;
     tasks := x ;
     network := network w ;
     events := events w |}.

Definition set_network (x : list FetchOutcome) (w : World) : World :=
  {| repo_value := repo_value w ;
     status_text := status_text w ;
     out_text := out_text w ;
     diagram := diagram w ;
     body_appended := body_appended w ;
     currentSVG := currentSVG w ;
     currentDot := currentDot w ;
     platform := platform w ;
     next_id := next_id w ;
     object_urls := object_urls w ;
     tasks := tasks w ;
     network := x ;
     events := events w |}.

Definition set_events (x : list Event) (w : World) : World :=
  {| repo_value := repo_value w ;
     status_text := status_text w ;
     out_text := out_text w ;
     diagram := diagram w ;
     body_appended := body_appended w ;
     currentSVG := currentSVG w ;
     currentDot := currentDot w ;
     platform := platform w ;
     next_id := next_id w ;
     object_urls := object_urls w ;
     tasks := tasks w ;
     network := network w ;
     events := x |}.

Definition add_event (e : Event) (w : World) : World :=
  set_events (e :: events w) w.

Definition add_task (t : Task) (w : World) : World :=
  set_tasks (tasks w ++ [t]) w.

(** ** The monad *)

(** How a piece of script ends: normally, by throwing (for an [async]
    function: by rejecting its promise), or blocked on an [await] whose
    answer never comes. *)
Inductive Completion (A : Type) : Type :=
| Returned (a : A)
| Thrown (e : JsError)
| Blocked.

Arguments Returned {A} a.
Arguments Thrown {A} e.
Arguments Blocked {A}.

Definition M (A : Type) : Type := World -> Completion A * World.

Definition ret {A} (a : A) : M A := fun w => (Returned a, w).

Definition bind {A B} (m : M A) (k : A -> M B) : M B :=
  fun w =>
    match m w with
    | (Returned a, w') => k a w'
    | (Thrown e, w') => (Thrown e, w')
    | (Blocked, w') => (Blocked, w')
    end.

Definition throw {A} (e : JsError) : M A := fun w => (Thrown e, w).

Definition try_catch {A} (m : M A) (handler : JsError -> M A) : M A :=
  fun w =>
    match m w with
    | (Thrown e, w') => handler e w'
    | r => r
    end.

Declare Scope js_scope.
Delimit Scope js_scope with js.
Notation "x <- m ;; k" := (bind m (fun x => k))
  (at level 61, m at next level, right associativity) : js_scope.
Notation "m ;; k" := (bind m (fun _ => k))
  (at level 61, right associativity) : js_scope.
Open Scope js_scope.

Definition exec {A} (m : M A) (w : World) : World := snd (m w).
Definition completion {A} (m : M A) (w : World) : Completion A := fst (m w).

Definition get {A} (f : World -> A) : M A := fun w => (Returned (f w), w).
Definition modify (f : World -> World) : M unit := fun w => (Returned tt, f w).
Definition log (e : Event) : M unit := modify (add_event e).

Definition lift {A} (r : JsError + A) : M A :=
  match r with inl e => throw e | inr a => ret a end.

(** [if (c) throw e;] *)
Definition throw_if (c : bool) (e : JsError) : M unit :=
  if c then throw e else ret tt.

(** Calling an [async] function without awaiting it, or running a callback
    from the event loop: the caller goes on whatever happens to the callee;
    a rejection nobody handles is reported by the browser. *)
Definition spawn (m : M unit) : M unit :=
  fun w =>
    match m w with
    | (Thrown e, w') => (Returned tt, add_event (EvUncaught e) w')
    | (_, w') => (Returned tt, w')
    end.

(** ** Browser primitives *)

Definition GET (url : string) : Request :=
  {| req_method := "GET"; req_url := url; req_headers := []; req_body := None |}.

Definition POST (url : string) (headers : list (string * string))
    (body : option string) : Request :=
  {| req_method := "POST"; req_url := url; req_headers := headers;
     req_body := body |}.

(** [await fetch(...)]: the request is sent and the next outcome of the
    network is consumed. *)
Definition fetch (req : Request) : M Response :=
  fun w =>
    match network w with
    | [] => (Blocked, add_event (EvFetch req Unanswered) w)
    | o :: rest =>
        let w' := add_event (EvFetch req o) (set_network rest w) in
        match o with
        | Reply r => (Returned r, w')
        | NetworkError => (Thrown (TypeError "Failed to fetch"), w')
        | Unanswered => (Blocked, w')
        end
    end.

Definition res_json (r : Response) : M JsVal :=
  match body_json r with
  | Some v => ret v
  | None => throw (SyntaxError "Unexpected token in JSON")
  end.

Definition res_text (r : Response) : M string := ret (body_text r).

Definition res_blob (r : Response) : M Blob :=
  ret {| blob_data := body_text r; blob_type := content_type r |}.

Definition alert (msg : string) : M unit := log (EvAlert msg).
Definition console_error (e : JsError) : M unit := log (EvConsoleError e).

Definition setStatus (s : string) : M unit := modify (set_status_text s).

(** [setTimeout(cb, ms)] *)
Definition setTimeout (cb : Callback) (ms : nat) : M unit :=
  modify (add_task (Timeout ms cb)).

Definition fresh : M nat :=
  fun w => (Returned (next_id w), set_next_id (S (next_id w)) w).

(** [await viz.renderSVGElement(dot)]: a new element each time. *)
Definition renderSVGElement (dot : string) : M Element :=
  p <- get platform ;;
  markup <- lift (viz_svg p dot) ;;
  n <- fresh ;;
  ret {| node_id := n; outerHTML := markup |}.

(** [container.innerHTML = ""] *)
Definition clearDiagram : M unit := modify (set_diagram []).

(** [container.appendChild(node)] *)
Definition appendToDiagram (node : option Element) : M unit :=
  match node with
  | Some e => modify (fun w => set_diagram (diagram w ++ [e]) w)
  | None =>
      throw (TypeError "Failed to execute 'appendChild' on 'Node': parameter 1 is not of type 'Node'.")
  end.

(** [URL.createObjectURL(blob)] *)
Definition createObjectURL (blob : option Blob) : M nat :=
  match blob with
  | Some b =>
      n <- fresh ;;
      modify (fun w => set_object_urls ((n, b) :: object_urls w) w) ;;
      ret n
  | None =>
      throw (TypeError "Failed to execute 'createObjectURL' on 'URL': Overload resolution failed.")
  end.

(** [URL.revokeObjectURL(url)] *)
Definition revokeObjectURL (url : nat) : M unit :=
  modify (fun w =>
    set_object_urls
      (filter (fun e => negb (Nat.eqb (fst e) url)) (object_urls w)) w).

Fixpoint find_url (url : nat) (l : list (nat * Blob)) : option Blob :=
  match l with
  | [] => None
  | (n, b) :: rest => if Nat.eqb n url then Some b else find_url url rest
  end.

(** [a.click()] on a link with [href] an object URL and a [download]
    name: the browser saves the blob under that name. *)
Definition click_download (href : nat) (name : string) : M unit :=
  urls <- get object_urls ;;
  match find_url href urls with
  | Some b => log (EvDownload name b)
  | None => ret tt
  end.

(** [new XMLSerializer().serializeToString(node)] *)
Definition serializeToString (node : option Element) : M string :=
  match node with
  | Some e => p <- get platform ;; ret (xml_serialize p (outerHTML e))
  | None =>
      throw (TypeError "Failed to execute 'serializeToString' on 'XMLSerializer': parameter 1 is not of type 'Node'.")
  end.

(** [img.onload = cb; img.src = url]: when the blob behind [url] decodes
    as an image, [cb] is queued. *)
Definition load_image (url : nat) (onload : Image -> Callback) : M unit :=
  p <- get platform ;;
  urls <- get object_urls ;;
  match find_url url urls with
  | Some b =>
      match image_size p b with
      | Some (wd, ht) =>
          modify (add_task (Reaction
            (onload {| img_source := b; img_width := wd; img_height := ht |})))
      | None => ret tt
      end
  | None => ret tt
  end.

(** [canvas.toBlob(cb)] on a canvas of the image's size holding the image. *)
Definition canvas_toBlob (img : Image) (cb : option Blob -> Callback) : M unit :=
  p <- get platform ;;
  modify (add_task (Reaction (cb (canvas_png p img)))).

(** ** The event loop *)

Fixpoint remove_nth {A} (n : nat) (l : list A) : list A :=
  match l, n with
  | [], _ => []
  | _ :: rest, O => rest
  | x :: rest, S n' => x :: remove_nth n' rest
  end.

(** The browser runs queued callbacks one at a time.  Which one comes
    next depends on delays and timing the scripts do not control, so the
    loop takes a schedule: the positions, in the queue, of the callbacks
    to run.  A position beyond the queue runs nothing. *)
Fixpoint event_loop (run_callback : Callback -> M unit)
    (schedule : list nat) (w : World) : World :=
  match schedule with
  | [] => w
  | i :: rest =>
      match nth_error (tasks w) i with
      | Some t =>
          event_loop run_callback rest
            (exec (spawn (run_callback (callback_of t)))
               (set_tasks (remove_nth i (tasks w)) w))
      | None => event_loop run_callback rest w
      end
  end.

(** Views of the log, most recent first like the log itself. *)
Definition requests (w : World) : list Request :=
  flat_map (fun e => match e with EvFetch r _ => [r] | _ => [] end) (events w).

Definition downloads (w : World) : list (string * Blob) :=
  flat_map (fun e => match e with EvDownload n b => [(n, b)] | _ => [] end)
    (events w).

Definition render_calls (w : World) : list JsVal :=
  flat_map (fun e => match e with EvRender a => [a] | _ => [] end) (events w).

Definition uncaught (w : World) : list JsError :=
  flat_map (fun e => match e with EvUncaught a => [a] | _ => [] end) (events w).

Definition posts (w : World) : list Request :=
  filter (fun r => String.eqb (req_method r) "POST") (requests w).

(** ** frontend/main.js, first script (lines 1-154) *)

Module Guarded.

Definition API_BASE : string := "https://arch-repoo.onrender.com".

(* function save(blob, name), lines 147-154 *)
Definition save (blob : option Blob) (name : string) : M unit :=
  a <- fresh ;;                                   (* createElement("a") *)
  href <- createObjectURL blob ;;
  modify (fun w => set_body_appended (body_appended w ++ [a]) w) ;;
  click_download href name ;;
  modify (fun w =>
    set_body_appended
      (filter (fun n => negb (Nat.eqb n a)) (body_appended w)) w).

(* async function render(job), lines 75-95 *)
Definition render (job : JsVal) : M unit :=
  log (EvRender job) ;;                 (* the call, recorded for the proofs *)
  try_catch
    (dotRes <- fetch (GET (API_BASE ++ "/result/" ++ toString job ++ "/dot")) ;;
     throw_if (negb (ok dotRes)) (Error "DOT fetch failed") ;;
     dot <- res_text dotRes ;;
     svg <- renderSVGElement dot ;;
     modify (set_currentSVG (Some svg)) ;;
     clearDiagram ;;
     cur <- get currentSVG ;;
     appendToDiagram cur ;;
     setStatus "Done ✅")
    (fun err =>
       console_error err ;;
       setStatus "Graphviz render failed.").

(* async function poll(job), lines 46-70 *)
Definition poll (job : JsVal) : M unit :=
  try_catch
    (res <- fetch (GET (API_BASE ++ "/status/" ++ toString job)) ;;
     throw_if (negb (ok res)) (Error "Status error") ;;
     s <- res_json res ;;
     ready <- lift (getProp s "ready") ;;
     if negb (truthy ready) then
       setStatus "Running pipeline..." ;;
       setTimeout (CbPoll job) 2000
     else
       setStatus "Rendering diagram..." ;;
       spawn (render job))
    (fun err =>
       console_error err ;;
       setStatus "Waiting for backend..." ;;
       setTimeout (CbPoll job) 3000).

(* async function run(), lines 13-41 *)
Definition run : M unit :=
  value <- get repo_value ;;
  let repo := trim value in
  if is_empty repo then
    alert "Please enter a repository URL"
  else
    setStatus "Waking up server (may take ~30 seconds)..." ;;
    try_catch
      (query <- lift (encodeURIComponent repo) ;;
       res <- fetch (POST (API_BASE ++ "/run?repo_url=" ++ query) [] None) ;;
       throw_if (negb (ok res))
         (Error ("Run failed: " ++ nat_to_string (status res))) ;;
       data <- res_json res ;;
       job_id <- lift (getProp data "job_id") ;;
       spawn (poll job_id))
      (fun err =>
         console_error err ;;
         setStatus "Failed to connect to backend.").

(* function downloadSVG(), lines 100-108 *)
Definition downloadSVG : M unit :=
  cur <- get currentSVG ;;
  match cur with
  | None => ret tt
  | Some svg =>
      save (Some {| blob_data := outerHTML svg;
                    blob_type := "image/svg+xml;charset=utf-8" |})
        "architecture.svg"
  end.

(* function downloadPNG(), lines 113-142 *)
Definition downloadPNG : M unit :=
  cur <- get currentSVG ;;
  match cur with
  | None => ret tt
  | Some _ =>
      svgData <- serializeToString cur ;;
      let svgBlob := {| blob_data := svgData;
                        blob_type := "image/svg+xml;charset=utf-8" |} in
      url <- createObjectURL (Some svgBlob) ;;
      load_image url (fun img => CbImgOnload img url)
  end.

(* img.onload = () => { ... }, lines 127-139 *)
Definition img_onload (img : Image) (url : nat) : M unit :=
  canvas_toBlob img (fun blob => CbToBlob blob url).

(* blob => { save(blob, "architecture.png"); URL.revokeObjectURL(url); } *)
Definition toBlob_callback (blob : option Blob) (url : nat) : M unit :=
  save blob "architecture.png" ;;
  revokeObjectURL url.

Definition run_callback (cb : Callback) : M unit :=
  match cb with
  | CbPoll job => poll job
  | CbImgOnload img url => img_onload img url
  | CbToBlob blob url => toBlob_callback blob url
  | CbSvgSettled _ | CbImageSettled _ => ret tt
  end.

End Guarded.

(** ** frontend/main.js, second script (lines 155-211) *)

Module Plain.

(* function save(blob, name), lines 206-211 *)
Definition save (blob : option Blob) (name : string) : M unit :=
  href <- createObjectURL blob ;;
  click_download href name.

(* async function render(job), lines 179-184 *)
Definition render (job : JsVal) : M unit :=
  log (EvRender job) ;;                 (* the call, recorded for the proofs *)
  r <- fetch (GET ("/result/" ++ toString job ++ "/dot")) ;;
  dot <- res_text r ;;
  svg <- renderSVGElement dot ;;
  modify (set_currentSVG (Some svg)) ;;
  clearDiagram ;;
  cur <- get currentSVG ;;
  appendToDiagram cur.

(* async function poll(job), lines 169-177 *)
Definition poll (job : JsVal) : M unit :=
  r <- fetch (GET ("/status/" ++ toString job)) ;;
  s <- res_json r ;;
  ready <- lift (getProp s "ready") ;;
  if negb (truthy ready) then
    setTimeout (CbPoll job) 2000
  else
    setStatus "Rendering diagram..." ;;
    spawn (render job).

(* async function run(), lines 158-167 *)
Definition run : M unit :=
  repo <- get repo_value ;;
  setStatus "Running pipeline..." ;;
  query <- lift (encodeURIComponent repo) ;;
  res <- fetch (POST ("/run?repo_url=" ++ query) [] None) ;;
  data <- res_json res ;;
  job_id <- lift (getProp data "job_id") ;;
  spawn (poll job_id).

(* function downloadSVG(), lines 186-189 *)
Definition downloadSVG : M unit :=
  cur <- get currentSVG ;;
  match cur with
  | None =>
      throw (TypeError "Cannot read properties of null (reading 'outerHTML')")
  | Some svg =>
      save (Some {| blob_data := outerHTML svg; blob_type := "image/svg+xml" |})
        "architecture.svg"
  end.

(* function downloadPNG(), lines 191-204 *)
Definition downloadPNG : M unit :=
  cur <- get currentSVG ;;
  svgData <- serializeToString cur ;;
  url <- createObjectURL
           (Some {| blob_data := svgData; blob_type := "image/svg+xml" |}) ;;
  load_image url (fun img => CbImgOnload img url).

(* img.onload = () => { ... }, lines 197-202 *)
Definition img_onload (img : Image) (url : nat) : M unit :=
  canvas_toBlob img (fun blob => CbToBlob blob url).

(* b => save(b, "architecture.png") *)
Definition toBlob_callback (blob : option Blob) : M unit :=
  save blob "architecture.png".

Definition run_callback (cb : Callback) : M unit :=
  match cb with
  | CbPoll job => poll job
  | CbImgOnload img url => img_onload img url
  | CbToBlob blob _ => toBlob_callback blob
  | CbSvgSettled _ | CbImageSettled _ => ret tt
  end.

End Plain.

(** ** frontend/main.js, third script (lines 212-222) *)

Module JobId.

Definition API : string := "https://arch-repo.onrender.com".

(* async function run(), lines 214-222 *)
Definition run : M unit :=
  repo <- get repo_value ;;
  query <- lift (encodeURIComponent repo) ;;
  r <- fetch (POST (API ++ "/run?repo_url=" ++ query) [] None) ;;
  j <- res_json r ;;
  job_id <- lift (getProp j "job_id") ;;
  modify (set_out_text ("Job ID: " ++ toString job_id)).

Definition run_callback (cb : Callback) : M unit := ret tt.

End JobId.

(** ** part_000 *)

Module DotPoll.

Definition RENDER_URL : string := "https://arch-repoo.onrender.com".

(* function download(blob, filename), lines 63-68 *)
Definition download (blob : option Blob) (filename : string) : M unit :=
  href <- createObjectURL blob ;;
  click_download href filename.

(* function renderDot(dot), lines 35-46: the call itself *)
Definition renderDot (dot : string) : M unit :=
  log (EvRender (VStr dot)) ;;          (* the call, recorded for the proofs *)
  p <- get platform ;;
  match viz_svg p dot with
  | inr markup =>
      n <- fresh ;;
      modify (add_task (Reaction
        (CbSvgSettled (inr {| node_id := n; outerHTML := markup |}))))
  | inl err => modify (add_task (Reaction (CbSvgSettled (inl err))))
  end.

(* .then(svg => { ... }).catch(err => { ... }), lines 38-45 *)
Definition renderDot_settled (r : JsError + Element) : M unit :=
  match r with
  | inr svg =>
      clearDiagram ;;
      appendToDiagram (Some svg)
  | inl err => setStatus (err_toString err)
  end.

(* async function poll(jobId), lines 21-33 *)
Definition poll (jobId : JsVal) : M unit :=
  setStatus "Processing repository..." ;;
  res <- fetch (GET (RENDER_URL ++ "/result/" ++ toString jobId ++ "/dot")) ;;
  if negb (ok res) then
    setTimeout (CbPoll jobId) 2000
  else
    dot <- res_text res ;;
    modify (set_currentDot dot) ;;
    cur <- get currentDot ;;
    renderDot cur ;;
    setStatus "Done ✅".

(* async function run(), lines 5-19 *)
Definition run : M unit :=
  repo <- get repo_value ;;
  setStatus "Running pipeline..." ;;
  res <- fetch (POST (RENDER_URL ++ "/run")
                  [("Content-Type", "application/json")]
                  (Some (JSON_stringify_repo_url repo))) ;;
  data <- res_json res ;;
  jobId <- lift (getProp data "job_id") ;;
  spawn (poll jobId).

(* function downloadSVG(), lines 48-51 *)
Definition downloadSVG : M unit :=
  cur <- get currentDot ;;
  download (Some {| blob_data := cur; blob_type := "image/svg+xml" |})
    "architecture.svg".

(* function downloadPNG(), lines 53-61: the call itself *)
Definition downloadPNG : M unit :=
  cur <- get currentDot ;;
  p <- get platform ;;
  modify (add_task (Reaction (CbImageSettled (viz_image p cur)))).

(* .then(img => { fetch(img.src).then(res => res.blob())
                    .then(blob => download(blob, "architecture.png")); }) *)
Definition image_settled (r : JsError + string) : M unit :=
  src <- lift r ;;
  res <- fetch (GET src) ;;
  blob <- res_blob res ;;
  download (Some blob) "architecture.png".

Definition run_callback (cb : Callback) : M unit :=
  match cb with
  | CbPoll jobId => poll jobId
  | CbSvgSettled r => renderDot_settled r
  | CbImageSettled r => image_settled r
  | CbImgOnload _ _ | CbToBlob _ _ => ret tt
  end.

End DotPoll.

(** ** Pages to run the scripts on *)

(** A handler called by the page (a click on a button): nobody awaits it. *)
Definition call (handler : M unit) (w : World) : World := exec (spawn handler) w.

(** A stand-in for the layout library and the codecs, to run examples. *)
Definition demo_platform : Platform :=
  {| viz_svg := fun dot =>
       if is_empty dot then inl (Error "syntax error in line 1")
       else inr ("<svg><title>" ++ dot ++ "</title></svg>");
     viz_image := fun dot =>
       if is_empty dot then inl (Error "syntax error in line 1")
       else inr ("data:image/png;base64," ++ dot);
     xml_serialize := fun markup => markup;
     image_size := fun _ => Some (120, 80);
     canvas_png := fun _ => Some {| blob_data := "PNG"; blob_type := "image/png" |} |}.

(** The page as loaded: nothing rendered, nothing pending, nothing logged. *)
Definition fresh_page (repo : string) (answers : list FetchOutcome) : World :=
  {| repo_value := repo;
     status_text := "";
     out_text := "";
     diagram := [];
     body_appended := [];
     currentSVG := None;
     currentDot := "";
     platform := demo_platform;
     next_id := 0;
     object_urls := [];
     tasks := [];
     network := answers;
     events := [] |}.

Definition json_reply (code : nat) (v : JsVal) : FetchOutcome :=
  Reply {| status := code; body_text := ""; body_json := Some v;
           content_type := "application/json" |}.

Definition text_reply (code : nat) (s : string) : FetchOutcome :=
  Reply {| status := code; body_text := s; body_json := None;
           content_type := "text/plain" |}.

(** ** Reading the answers of the backend *)

(** What a status response says about readiness, as [poll] reads it:
    [s.ready] of the decoded body.  [None] when the body does not decode
    or decodes to [null]. *)
Definition readiness (o : FetchOutcome) : option bool :=
  match o with
  | Reply r =>
      match body_json r with
      | Some s =>
          match getProp s "ready" with
          | inr v => Some (truthy v)
          | inl _ => None
          end
      | None => None
      end
  | _ => None
  end.

Definition success (o : FetchOutcome) : bool :=
  match o with
  | Reply r => ok r
  | _ => false
  end.

(** What is on display: the markup in the diagram, the status line, and
    the markup of the image kept for export.  Node identities are left out. *)
Definition visible (w : World) : list string * string * option string :=
  (map outerHTML (diagram w), status_text w, option_map outerHTML (currentSVG w)).

(** The session state the export operations read, and the diagram. *)
Definition session (w : World) : option Element * string * list Element :=
  (currentSVG w, currentDot w, diagram w).

(** A status request that failed: no response, or a response whose status
    is not a success. *)
Definition failed (o : FetchOutcome) : bool :=
  match o with
  | NetworkError => true
  | Reply r => negb (ok r)
  | Unanswered => false
  end.

(** The backend has reported the job [id] ready: a response to
    [GET base/status/id] that [accept]s. *)
Definition reported_ready (base : string) (accept : FetchOutcome -> bool)
    (id : string) (older : list Event) : Prop :=
  exists o, In (EvFetch (GET (base ++ "/status/" ++ id)) o) older
            /\ accept o = true.

(** Every call of [render] and every request for a result in the log comes
    after such a report for the same job. *)
Fixpoint ready_first (base : string) (accept : FetchOutcome -> bool)
    (log : list Event) : Prop :=
  match log with
  | [] => True
  | e :: older =>
      match e with
      | EvRender job => reported_ready base accept (toString job) older
      | EvFetch req _ =>
          forall id, req_url req = base ++ "/result/" ++ id ++ "/dot" ->
                     reported_ready base accept id older
      | _ => True
      end
      /\ ready_first base accept older
  end.

(** Every call of [renderDot] in the log comes after a successful response
    to a request for a result, and renders the text of that response. *)
Fixpoint rendered_from_result (base : string) (log : list Event) : Prop :=
  match log with
  | [] => True
  | e :: older =>
      match e with
      | EvRender arg =>
          exists id r,
            In (EvFetch (GET (base ++ "/result/" ++ id ++ "/dot")) (Reply r)) older
            /\ ok r = true /\ arg = VStr (body_text r)
      | _ => True
      end
      /\ rendered_from_result base older
  end.

Definition guarded_ready (o : FetchOutcome) : bool :=
  success o && match readiness o with Some b => b | None => false end.

Definition plain_ready (o : FetchOutcome) : bool :=
  match readiness o with Some b => b | None => false end.

(** The two shapes of the submission request found in the scripts. *)
Definition query_submission (base repo : string) : Request :=
  POST (base ++ "/run?repo_url=" ++ uri_encode repo) [] None.

Definition body_submission (base repo : string) : Request :=
  POST (base ++ "/run") [("Content-Type", "application/json")]
    (Some (JSON_stringify_repo_url repo)).

(** Answers used in the examples. *)
Definition not_ready_yet : FetchOutcome :=
  json_reply 200 (VObj [("ready", VBool false)]).

Definition ready_now : FetchOutcome :=
  json_reply 200 (VObj [("ready", VBool true)]).

Definition job_created : FetchOutcome :=
  json_reply 200 (VObj [("job_id", VStr "j1")]).

Definition sample_dot : string := "digraph { a -> b }".

Definition sample_repo : string := "https://github.com/a/b".

(** A value with an unpaired surrogate (U+D83D) after the letter a. *)
Definition malformed_repo : string := bytes [97; 237; 160; 189].

(** A page on which the first script has rendered [sample_dot], and one
    on which it has polled once and is waiting. *)
Definition rendered_page : World :=
  event_loop Guarded.run_callback [0; 0]
    (call Guarded.run
       (fresh_page sample_repo
          [job_created; not_ready_yet; ready_now; text_reply 200 sample_dot])).

Definition waiting_page : World := fresh_page sample_repo [not_ready_yet].

(** ** Lemmas *)

(** *** The string functions on examples *)

Example trim_example :
  trim (bytes [32; 9; 104; 105; 32; 120; 226; 128; 168; 10]) = "hi x"
  /\ trim (bytes [32; 194; 160; 10]) = ""
  /\ trim "a b" = "a b".
Proof. repeat split. Qed.

Example encodeURIComponent_example :
  encodeURIComponent "https://github.com/a/b?x=1 2"
  = inr "https%3A%2F%2Fgithub.com%2Fa%2Fb%3Fx%3D1%202"
  /\ encodeURIComponent (bytes [195; 169; 45; 95; 126]) = inr "%C3%A9-_~"
  /\ encodeURIComponent (bytes [240; 159; 152; 128]) = inr "%F0%9F%98%80"
  /\ encodeURIComponent malformed_repo = inl (URIError "URI malformed")
  /\ encodeURIComponent (bytes [237; 159; 191]) = inr "%ED%9F%BF".
Proof. repeat split. Qed.

Example JSON_stringify_surrogate_example :
  JSON_stringify_repo_url malformed_repo
  = bytes [123; 34] ++ "repo_url" ++ bytes [34; 58; 34]
      ++ "a\ud83d" ++ bytes [34; 125].
Proof. reflexivity. Qed.

Example JSON_stringify_example :
  JSON_stringify_repo_url (bytes [97; 34; 92; 10; 1; 98])
  = bytes [123; 34] ++ "repo_url" ++ bytes [34; 58; 34]
      ++ "a" ++ bytes [92; 34; 92; 92] ++ "\n\u0001b" ++ bytes [34; 125].
Proof. reflexivity. Qed.

Example toString_example :
  toString (VArr [VNum {| num_printed := "1"; num_falsy := false |}; VNull;
                  VStr "a"; VNum {| num_printed := "-20"; num_falsy := false |}])
  = "1,,a,-20"
  /\ toString VUndefined = "undefined"
  /\ nat_to_string 500 = "500".
Proof. repeat split. Qed.

Example ok_example :
  ok {| status := 200; body_text := ""; body_json := None; content_type := "" |} = true
  /\ ok {| status := 299; body_text := ""; body_json := None; content_type := "" |} = true
  /\ ok {| status := 500; body_text := ""; body_json := None; content_type := "" |} = false
  /\ ok {| status := 304; body_text := ""; body_json := None; content_type := "" |} = false.
Proof. repeat split. Qed.

(** *** Strings *)

Lemma append_cancel_l (p a b : string) : p ++ a = p ++ b -> a = b.
Proof.
  induction p as [|c p IH]; cbn [String.append]; intros H; [exact H|].
  injection H as H. auto.
Qed.

Lemma length_append (a b : string) :
  String.length (a ++ b) = String.length a + String.length b.
Proof.
  induction a as [|c a IH]; cbn [String.append String.length]; [reflexivity|].
  rewrite IH. reflexivity.
Qed.

Lemma append_cancel_r (a b c : string) : a ++ c = b ++ c -> a = b.
Proof.
  revert b. induction a as [|x a IH]; intros [|y b] H; cbn [String.append] in H.
  - reflexivity.
  - apply (f_equal String.length) in H. cbn [String.length] in H.
    rewrite length_append in H. lia.
  - apply (f_equal String.length) in H. cbn [String.length] in H.
    rewrite length_append in H. lia.
  - injection H as Hx H. subst. f_equal. auto.
Qed.

Lemma result_url_inj (base x y : string) :
  base ++ "/result/" ++ x ++ "/dot" = base ++ "/result/" ++ y ++ "/dot" -> x = y.
Proof.
  intros H. apply append_cancel_l in H. apply append_cancel_l in H.
  apply append_cancel_r in H. exact H.
Qed.

Lemma status_url_not_result (base x y : string) :
  base ++ "/status/" ++ x <> base ++ "/result/" ++ y ++ "/dot".
Proof.
  intros H. apply append_cancel_l in H. cbv [String.append] in H. discriminate H.
Qed.

Lemma run_url_not_result (base x y : string) :
  base ++ "/run?repo_url=" ++ x <> base ++ "/result/" ++ y ++ "/dot".
Proof.
  intros H. apply append_cancel_l in H. cbv [String.append] in H. discriminate H.
Qed.

Lemma run_path_not_result (base y : string) :
  base ++ "/run" <> base ++ "/result/" ++ y ++ "/dot".
Proof.
  intros H. apply append_cancel_l in H. cbv [String.append] in H. discriminate H.
Qed.

Arguments trim : simpl never.
Arguments encodeURIComponent : simpl never.
Arguments uri_encode : simpl never.
Arguments lone_surrogate : simpl never.
Arguments toString : simpl never.
Arguments nat_to_string : simpl never.
Arguments JSON_stringify_repo_url : simpl never.
Arguments String.append : simpl never.
Arguments Guarded.render : simpl never.
Arguments Guarded.poll : simpl never.
Arguments Guarded.save : simpl never.
Arguments Plain.render : simpl never.
Arguments Plain.poll : simpl never.
Arguments Plain.save : simpl never.
Arguments DotPoll.renderDot : simpl never.
Arguments DotPoll.poll : simpl never.
Arguments DotPoll.download : simpl never.

Lemma is_empty_true (s : string) : is_empty s = true <-> s = "".
Proof. destruct s; simpl; split; congruence. Qed.

Lemma is_empty_false (s : string) : is_empty s = false <-> s <> "".
Proof. destruct s; simpl; split; congruence. Qed.

Ltac js_unfold :=
  unfold call, exec, completion, spawn, try_catch,
    renderSVGElement, clearDiagram, appendToDiagram, createObjectURL,
    revokeObjectURL, click_download, serializeToString, load_image,
    canvas_toBlob, alert, console_error, setStatus, setTimeout, throw_if,
    fetch, res_json, res_text, res_blob, fresh, lift, log, get, modify,
    encodeURIComponent,
    bind, ret, throw, add_event, add_task in *.

(** *** Submitting (C2, C3) *)

Lemma guarded_run_empty (w : World) :
  trim (repo_value w) = "" ->
  call Guarded.run w = add_event (EvAlert "Please enter a repository URL") w.
Proof.
  intros H. unfold Guarded.run. js_unfold. cbn. rewrite H. reflexivity.
Qed.

Lemma guarded_run_empty_no_request (w : World) :
  trim (repo_value w) = "" ->
  requests (call Guarded.run w) = requests w
  /\ network (call Guarded.run w) = network w
  /\ tasks (call Guarded.run w) = tasks w
  /\ status_text (call Guarded.run w) = status_text w.
Proof.
  intros H. rewrite (guarded_run_empty w H).
  unfold requests, add_event. cbn. auto.
Qed.

Lemma guarded_run_backend_error (w : World) (r : Response) (rest : list FetchOutcome) :
  trim (repo_value w) <> "" ->
  lone_surrogate (trim (repo_value w)) = false ->
  network w = Reply r :: rest ->
  ok r = false ->
  status_text (call Guarded.run w) = "Failed to connect to backend."
  /\ tasks (call Guarded.run w) = tasks w
  /\ events (call Guarded.run w) =
       EvConsoleError (Error ("Run failed: " ++ nat_to_string (status r)))
       :: EvFetch (POST (Guarded.API_BASE ++ "/run?repo_url="
                           ++ uri_encode (trim (repo_value w))) [] None)
            (Reply r)
       :: events w.
Proof.
  intros Hne Hs Hnet Hok. apply is_empty_false in Hne.
  unfold Guarded.run. js_unfold. cbn. rewrite Hne. cbn. rewrite Hs. cbn.
  rewrite Hnet. cbn. rewrite Hok. cbn. auto.
Qed.

Lemma guarded_run_network_error (w : World) (rest : list FetchOutcome) :
  trim (repo_value w) <> "" ->
  network w = NetworkError :: rest ->
  status_text (call Guarded.run w) = "Failed to connect to backend."
  /\ tasks (call Guarded.run w) = tasks w.
Proof.
  intros Hne Hnet. apply is_empty_false in Hne.
  unfold Guarded.run. js_unfold. cbn. rewrite Hne. cbn.
  destruct (lone_surrogate (trim (repo_value w))); cbn; [auto|].
  rewrite Hnet. cbn. auto.
Qed.

Lemma guarded_run_malformed (w : World) :
  trim (repo_value w) <> "" ->
  lone_surrogate (trim (repo_value w)) = true ->
  status_text (call Guarded.run w) = "Failed to connect to backend."
  /\ events (call Guarded.run w)
     = EvConsoleError (URIError "URI malformed") :: events w
  /\ network (call Guarded.run w) = network w
  /\ tasks (call Guarded.run w) = tasks w.
Proof.
  intros Hne Hs. apply is_empty_false in Hne.
  unfold Guarded.run. js_unfold. cbn. rewrite Hne. cbn. rewrite Hs. cbn.
  auto.
Qed.

Lemma plain_run_malformed (w : World) :
  lone_surrogate (repo_value w) = true ->
  call Plain.run w
  = add_event (EvUncaught (URIError "URI malformed"))
      (set_status_text "Running pipeline..." w).
Proof.
  intros Hs. unfold Plain.run. js_unfold. cbn. rewrite Hs. reflexivity.
Qed.

Lemma jobid_run_malformed (w : World) :
  lone_surrogate (repo_value w) = true ->
  call JobId.run w = add_event (EvUncaught (URIError "URI malformed")) w.
Proof.
  intros Hs. unfold JobId.run. js_unfold. cbn. rewrite Hs. reflexivity.
Qed.


(** *** The event loop *)

Lemma event_loop_idle (f : Callback -> M unit) (sched : list nat) (w : World) :
  tasks w = [] -> event_loop f sched w = w.
Proof.
  intros H. induction sched as [|i sched IH]; simpl; [reflexivity|].
  rewrite H. destruct i; simpl; exact IH.
Qed.

Lemma event_loop_first (f : Callback -> M unit) (sched : list nat) (w : World)
    (t : Task) (ts : list Task) :
  tasks w = t :: ts ->
  event_loop f (0 :: sched) w
  = event_loop f sched (call (f (callback_of t)) (set_tasks ts w)).
Proof. intros H. simpl. rewrite H. reflexivity. Qed.

Lemma readiness_inv (o : FetchOutcome) (b : bool) :
  readiness o = Some b ->
  exists r s v, o = Reply r /\ body_json r = Some s
                /\ getProp s "ready" = inr v /\ truthy v = b.
Proof.
  destruct o as [| |r]; simpl; try discriminate.
  destruct (body_json r) as [s|] eqn:Hj; try discriminate.
  destruct (getProp s "ready") as [e|v] eqn:Hp; try discriminate.
  intros H. injection H as H. exists r, s, v. auto.
Qed.

Lemma success_inv (o : FetchOutcome) :
  success o = true -> exists r, o = Reply r /\ ok r = true.
Proof. destruct o as [| |r]; simpl; try discriminate. eauto. Qed.

(** *** Polling, first script *)

Lemma guarded_render_effect (job : JsVal) (w : World) :
  tasks (call (Guarded.render job) w) = tasks w
  /\ render_calls (call (Guarded.render job) w) = job :: render_calls w.
Proof.
  unfold Guarded.render, render_calls. js_unfold. cbn.
  destruct (network w) as [|[| |r] rest]; cbn; auto.
  destruct (ok r); cbn; auto.
  destruct (viz_svg (platform w) (body_text r)); cbn; auto.
Qed.

Lemma guarded_poll_waiting (job : JsVal) (w : World) (o : FetchOutcome)
    (rest : list FetchOutcome) :
  network w = o :: rest ->
  success o = true -> readiness o = Some false ->
  call (Guarded.poll job) w
  = add_task (Timeout 2000 (CbPoll job))
      (set_status_text "Running pipeline..."
         (add_event (EvFetch (GET (Guarded.API_BASE ++ "/status/" ++ toString job)) o)
            (set_network rest w))).
Proof.
  intros Hnet Hs Hr.
  destruct (readiness_inv _ _ Hr) as (r & s & v & -> & Hj & Hp & Hv).
  simpl in Hs.
  unfold Guarded.poll. js_unfold. cbn.
  rewrite Hnet. cbn. rewrite Hs. cbn. rewrite Hj. cbn. rewrite Hp. cbn.
  rewrite Hv. reflexivity.
Qed.

Lemma guarded_poll_ready (job : JsVal) (w : World) (o : FetchOutcome)
    (rest : list FetchOutcome) :
  network w = o :: rest ->
  success o = true -> readiness o = Some true ->
  call (Guarded.poll job) w
  = call (Guarded.render job)
      (set_status_text "Rendering diagram..."
         (add_event (EvFetch (GET (Guarded.API_BASE ++ "/status/" ++ toString job)) o)
            (set_network rest w))).
Proof.
  intros Hnet Hs Hr.
  destruct (readiness_inv _ _ Hr) as (r & s & v & -> & Hj & Hp & Hv).
  simpl in Hs.
  unfold Guarded.poll. js_unfold. cbn.
  rewrite Hnet. cbn. rewrite Hs. cbn. rewrite Hj. cbn. rewrite Hp. cbn.
  rewrite Hv. cbn.
  match goal with |- context [Guarded.render job ?w'] =>
    destruct (Guarded.render job w') as [[a|e|] w''] end; reflexivity.
Qed.

Lemma guarded_poll_until_ready (pre : list FetchOutcome) :
  forall (w : World) (job : JsVal) (o : FetchOutcome) (rest : list FetchOutcome),
    tasks w = [] ->
    network w = (pre ++ o :: rest)%list ->
    Forall (fun a => success a = true /\ readiness a = Some false) pre ->
    success o = true -> readiness o = Some true ->
    let w' := event_loop Guarded.run_callback (repeat 0 (List.length pre))
                (call (Guarded.poll job) w) in
    render_calls w' = job :: render_calls w /\ tasks w' = [].
Proof.
  induction pre as [|a pre IH]; intros w job o rest Ht Hnet Hpre Hs Hr; cbn zeta.
  - simpl in Hnet. simpl repeat. simpl event_loop.
    rewrite (guarded_poll_ready job w o rest Hnet Hs Hr).
    match goal with |- context [call (Guarded.render job) ?w0] =>
      destruct (guarded_render_effect job w0) as [Ht' Hc] end.
    rewrite Ht', Hc. cbn. auto.
  - inversion Hpre as [|a' pre' [Hsa Hra] Hpre']; subst.
    simpl in Hnet. simpl List.length. simpl repeat.
    rewrite (guarded_poll_waiting job w a _ Hnet Hsa Hra).
    erewrite event_loop_first by (cbn; rewrite Ht; reflexivity).
    cbn [callback_of Guarded.run_callback].
    match goal with |- context [call (Guarded.poll job) ?w0] =>
      specialize (IH w0 job o rest) end.
    cbn zeta in IH. cbn in IH. apply IH; auto.
Qed.

(** *** Polling, second script *)

Lemma plain_render_effect (job : JsVal) (w : World) :
  tasks (call (Plain.render job) w) = tasks w
  /\ render_calls (call (Plain.render job) w) = job :: render_calls w.
Proof.
  unfold Plain.render, render_calls. js_unfold. cbn.
  destruct (network w) as [|[| |r] rest]; cbn; auto.
  destruct (viz_svg (platform w) (body_text r)); cbn; auto.
Qed.

Lemma plain_poll_waiting (job : JsVal) (w : World) (o : FetchOutcome)
    (rest : list FetchOutcome) :
  network w = o :: rest ->
  readiness o = Some false ->
  call (Plain.poll job) w
  = add_task (Timeout 2000 (CbPoll job))
      (add_event (EvFetch (GET ("/status/" ++ toString job)) o)
         (set_network rest w)).
Proof.
  intros Hnet Hr.
  destruct (readiness_inv _ _ Hr) as (r & s & v & -> & Hj & Hp & Hv).
  unfold Plain.poll. js_unfold. cbn.
  rewrite Hnet. cbn. rewrite Hj. cbn. rewrite Hp. cbn. rewrite Hv. reflexivity.
Qed.

Lemma plain_poll_ready (job : JsVal) (w : World) (o : FetchOutcome)
    (rest : list FetchOutcome) :
  network w = o :: rest ->
  readiness o = Some true ->
  call (Plain.poll job) w
  = call (Plain.render job)
      (set_status_text "Rendering diagram..."
         (add_event (EvFetch (GET ("/status/" ++ toString job)) o)
            (set_network rest w))).
Proof.
  intros Hnet Hr.
  destruct (readiness_inv _ _ Hr) as (r & s & v & -> & Hj & Hp & Hv).
  unfold Plain.poll. js_unfold. cbn.
  rewrite Hnet. cbn. rewrite Hj. cbn. rewrite Hp. cbn. rewrite Hv. cbn.
  match goal with |- context [Plain.render job ?w'] =>
    destruct (Plain.render job w') as [[a|e|] w''] end; reflexivity.
Qed.

Lemma plain_poll_until_ready (pre : list FetchOutcome) :
  forall (w : World) (job : JsVal) (o : FetchOutcome) (rest : list FetchOutcome),
    tasks w = [] ->
    network w = (pre ++ o :: rest)%list ->
    Forall (fun a => readiness a = Some false) pre ->
    readiness o = Some true ->
    let w' := event_loop Plain.run_callback (repeat 0 (List.length pre))
                (call (Plain.poll job) w) in
    render_calls w' = job :: render_calls w /\ tasks w' = [].
Proof.
  induction pre as [|a pre IH]; intros w job o rest Ht Hnet Hpre Hr; cbn zeta.
  - simpl in Hnet. simpl repeat. simpl event_loop.
    rewrite (plain_poll_ready job w o rest Hnet Hr).
    match goal with |- context [call (Plain.render job) ?w0] =>
      destruct (plain_render_effect job w0) as [Ht' Hc] end.
    rewrite Ht', Hc. cbn. auto.
  - inversion Hpre as [|a' pre' Hra Hpre']; subst.
    simpl in Hnet. simpl List.length. simpl repeat.
    rewrite (plain_poll_waiting job w a _ Hnet Hra).
    erewrite event_loop_first by (cbn; rewrite Ht; reflexivity).
    cbn [callback_of Plain.run_callback].
    match goal with |- context [call (Plain.poll job) ?w0] =>
      specialize (IH w0 job o rest) end.
    cbn zeta in IH. cbn in IH. apply IH; auto.
Qed.

(** *** Polling, part_000 *)

Lemma dotpoll_poll_waiting (jobId : JsVal) (w : World) (r : Response)
    (rest : list FetchOutcome) :
  network w = Reply r :: rest ->
  ok r = false ->
  call (DotPoll.poll jobId) w
  = add_task (Timeout 2000 (CbPoll jobId))
      (add_event
         (EvFetch (GET (DotPoll.RENDER_URL ++ "/result/" ++ toString jobId ++ "/dot"))
            (Reply r))
         (set_network rest (set_status_text "Processing repository..." w))).
Proof.
  intros Hnet Hok.
  unfold DotPoll.poll. js_unfold. cbn.
  rewrite Hnet. cbn. rewrite Hok. reflexivity.
Qed.

Lemma dotpoll_poll_ready (jobId : JsVal) (w : World) (r : Response)
    (rest : list FetchOutcome) :
  tasks w = [] ->
  network w = Reply r :: rest ->
  ok r = true ->
  let w' := event_loop DotPoll.run_callback [0] (call (DotPoll.poll jobId) w) in
  render_calls w' = VStr (body_text r) :: render_calls w
  /\ tasks w' = []
  /\ currentDot w' = body_text r.
Proof.
  intros Ht Hnet Hok. cbn zeta.
  unfold DotPoll.poll, DotPoll.renderDot, render_calls.
  js_unfold. cbn.
  rewrite Hnet. cbn. rewrite Hok. cbn.
  destruct (viz_svg (platform w) (body_text r)); cbn; rewrite Ht; cbn; auto.
Qed.

Lemma dotpoll_poll_until_ready (pre : list FetchOutcome) :
  forall (w : World) (jobId : JsVal) (r : Response) (rest : list FetchOutcome),
    tasks w = [] ->
    network w = (pre ++ Reply r :: rest)%list ->
    Forall (fun a => exists r', a = Reply r' /\ ok r' = false) pre ->
    ok r = true ->
    let w' := event_loop DotPoll.run_callback (repeat 0 (List.length pre + 1))
                (call (DotPoll.poll jobId) w) in
    render_calls w' = VStr (body_text r) :: render_calls w /\ tasks w' = [].
Proof.
  induction pre as [|a pre IH]; intros w jobId r rest Ht Hnet Hpre Hok; cbn zeta.
  - simpl in Hnet. simpl List.length. simpl repeat.
    destruct (dotpoll_poll_ready jobId w r rest Ht Hnet Hok) as (Hc & Ht' & _).
    auto.
  - inversion Hpre as [|a' pre' (r' & -> & Hok') Hpre']; subst.
    simpl in Hnet. simpl List.length. simpl repeat.
    rewrite (dotpoll_poll_waiting jobId w r' _ Hnet Hok').
    erewrite event_loop_first by (cbn; rewrite Ht; reflexivity).
    cbn [callback_of DotPoll.run_callback].
    match goal with |- context [call (DotPoll.poll jobId) ?w0] =>
      specialize (IH w0 jobId r rest) end.
    cbn zeta in IH. cbn in IH. apply IH; auto.
Qed.

(** *** Readiness before rendering (C7) *)

Lemma reported_ready_cons (base : string) (accept : FetchOutcome -> bool)
    (id : string) (e : Event) (older : list Event) :
  reported_ready base accept id older ->
  reported_ready base accept id (e :: older).
Proof. intros (o & Hin & Ha). exists o. split; [right; exact Hin | exact Ha]. Qed.

Lemma reported_ready_here (base : string) (accept : FetchOutcome -> bool)
    (id : string) (o : FetchOutcome) (older : list Event) :
  accept o = true ->
  reported_ready base accept id (EvFetch (GET (base ++ "/status/" ++ id)) o :: older).
Proof. intros Ha. exists o. split; [left; reflexivity | exact Ha]. Qed.

Create HintDb ready.
#[local] Hint Resolve reported_ready_cons reported_ready_here : ready.

Ltac not_a_result_url :=
  let id := fresh "id" in
  let H := fresh "H" in
  intros id H; exfalso; cbn in H;
  first [ exact (status_url_not_result _ _ _ H)
        | exact (run_url_not_result _ _ _ H)
        | exact (run_path_not_result _ _ H)
        | exact (status_url_not_result "" _ _ H)
        | exact (run_url_not_result "" _ _ H) ].

Ltac the_result_url :=
  let id := fresh "id" in
  let H := fresh "H" in
  intros id H; cbn in H;
  first [ apply result_url_inj in H
        | apply (result_url_inj "") in H ];
  subst id; auto 6 with ready.

Ltac ready_first_tac :=
  cbn [ready_first rendered_from_result];
  repeat match goal with
         | |- _ /\ _ => split
         | |- True => exact I
         | |- forall id, _ = _ -> _ => first [ not_a_result_url | the_result_url ]
         | |- reported_ready _ _ _ _ => auto 6 with ready
         end; auto.

Lemma guarded_ready_intro (r : Response) (s v : JsVal) :
  ok r = true -> body_json r = Some s -> getProp s "ready" = inr v ->
  truthy v = true -> guarded_ready (Reply r) = true.
Proof.
  intros Hok Hj Hp Hv. unfold guarded_ready, success, readiness.
  rewrite Hok, Hj, Hp, Hv. reflexivity.
Qed.

Lemma plain_ready_intro (r : Response) (s v : JsVal) :
  body_json r = Some s -> getProp s "ready" = inr v ->
  truthy v = true -> plain_ready (Reply r) = true.
Proof.
  intros Hj Hp Hv. unfold plain_ready, readiness.
  rewrite Hj, Hp, Hv. reflexivity.
Qed.

#[local] Hint Resolve guarded_ready_intro plain_ready_intro : ready.

Lemma guarded_poll_ready_first (job : JsVal) (w : World) :
  ready_first Guarded.API_BASE guarded_ready (events w) ->
  ready_first Guarded.API_BASE guarded_ready (events (call (Guarded.poll job) w)).
Proof.
  intros H. unfold Guarded.poll, Guarded.render. js_unfold. cbn.
  destruct (network w) as [|[| |r] rest]; cbn; try solve [ready_first_tac].
  destruct (ok r) eqn:Hok; cbn; try solve [ready_first_tac].
  destruct (body_json r) as [s|] eqn:Hj; cbn; try solve [ready_first_tac].
  destruct (getProp s "ready") as [e|v] eqn:Hp; cbn; try solve [ready_first_tac].
  destruct (truthy v) eqn:Hv; cbn; try solve [ready_first_tac].
  assert (Hacc : guarded_ready (Reply r) = true) by eauto with ready.
  destruct rest as [|[| |r'] rest']; cbn; try solve [ready_first_tac].
  destruct (ok r'); cbn; try solve [ready_first_tac].
  destruct (viz_svg (platform w) (body_text r')); cbn; solve [ready_first_tac].
Qed.

Lemma guarded_run_ready_first (w : World) :
  ready_first Guarded.API_BASE guarded_ready (events w) ->
  ready_first Guarded.API_BASE guarded_ready (events (call Guarded.run w)).
Proof.
  intros H. unfold Guarded.run. js_unfold. cbn.
  destruct (is_empty (trim (repo_value w))); cbn; try solve [ready_first_tac].
  destruct (lone_surrogate (trim (repo_value w))); cbn;
    try solve [ready_first_tac].
  destruct (network w) as [|[| |r] rest] eqn:Hnet; cbn; try solve [ready_first_tac].
  destruct (ok r); cbn; try solve [ready_first_tac].
  destruct (body_json r) as [data|]; cbn; try solve [ready_first_tac].
  destruct (getProp data "job_id") as [e|job]; cbn; try solve [ready_first_tac].
  match goal with |- context [Guarded.poll job ?w0] =>
    assert (Hp : ready_first Guarded.API_BASE guarded_ready
                   (events (call (Guarded.poll job) w0)))
      by (apply guarded_poll_ready_first; cbn; ready_first_tac);
    unfold call, exec, spawn in Hp;
    destruct (Guarded.poll job w0) as [[a|e|] w'']; cbn in *; auto
  end.
Qed.

Lemma guarded_callback_ready_first (cb : Callback) (w : World) :
  ready_first Guarded.API_BASE guarded_ready (events w) ->
  ready_first Guarded.API_BASE guarded_ready
    (events (call (Guarded.run_callback cb) w)).
Proof.
  intros H. destruct cb as [job|r|r|img url|blob url]; cbn [Guarded.run_callback].
  - apply guarded_poll_ready_first, H.
  - exact H.
  - exact H.
  - unfold Guarded.img_onload. js_unfold. cbn. exact H.
  - unfold Guarded.toBlob_callback, Guarded.save. js_unfold.
    destruct blob as [b|]; cbn; try solve [ready_first_tac].
    rewrite Nat.eqb_refl. cbn. ready_first_tac.
Qed.

Lemma guarded_loop_ready_first (sched : list nat) :
  forall w : World,
    ready_first Guarded.API_BASE guarded_ready (events w) ->
    ready_first Guarded.API_BASE guarded_ready
      (events (event_loop Guarded.run_callback sched w)).
Proof.
  induction sched as [|i sched IH]; intros w H; simpl; [exact H|].
  destruct (nth_error (tasks w) i) as [t|]; [|apply IH, H].
  apply IH. apply guarded_callback_ready_first. exact H.
Qed.

Lemma plain_poll_ready_first (job : JsVal) (w : World) :
  ready_first "" plain_ready (events w) ->
  ready_first "" plain_ready (events (call (Plain.poll job) w)).
Proof.
  intros H. unfold Plain.poll, Plain.render. js_unfold. cbn.
  destruct (network w) as [|[| |r] rest]; cbn; try solve [ready_first_tac].
  destruct (body_json r) as [s|] eqn:Hj; cbn; try solve [ready_first_tac].
  destruct (getProp s "ready") as [e|v] eqn:Hp; cbn; try solve [ready_first_tac].
  destruct (truthy v) eqn:Hv; cbn; try solve [ready_first_tac].
  assert (Hacc : plain_ready (Reply r) = true) by eauto with ready.
  destruct rest as [|[| |r'] rest']; cbn; try solve [ready_first_tac].
  destruct (viz_svg (platform w) (body_text r')); cbn; solve [ready_first_tac].
Qed.

Lemma plain_run_ready_first (w : World) :
  ready_first "" plain_ready (events w) ->
  ready_first "" plain_ready (events (call Plain.run w)).
Proof.
  intros H. unfold Plain.run. js_unfold. cbn.
  destruct (lone_surrogate (repo_value w)); cbn; try solve [ready_first_tac].
  destruct (network w) as [|[| |r] rest] eqn:Hnet; cbn; try solve [ready_first_tac].
  destruct (body_json r) as [data|]; cbn; try solve [ready_first_tac].
  destruct (getProp data "job_id") as [e|job]; cbn; try solve [ready_first_tac].
  match goal with |- context [Plain.poll job ?w0] =>
    assert (Hp : ready_first "" plain_ready (events (call (Plain.poll job) w0)))
      by (apply plain_poll_ready_first; cbn; ready_first_tac);
    unfold call, exec, spawn in Hp;
    destruct (Plain.poll job w0) as [[a|e|] w'']; cbn in *; auto
  end.
Qed.

Lemma plain_callback_ready_first (cb : Callback) (w : World) :
  ready_first "" plain_ready (events w) ->
  ready_first "" plain_ready (events (call (Plain.run_callback cb) w)).
Proof.
  intros H. destruct cb as [job|r|r|img url|blob url]; cbn [Plain.run_callback].
  - apply plain_poll_ready_first, H.
  - exact H.
  - exact H.
  - unfold Plain.img_onload. js_unfold. cbn. exact H.
  - unfold Plain.toBlob_callback, Plain.save. js_unfold.
    destruct blob as [b|]; cbn; try solve [ready_first_tac].
    rewrite Nat.eqb_refl. cbn. ready_first_tac.
Qed.

Lemma plain_loop_ready_first (sched : list nat) :
  forall w : World,
    ready_first "" plain_ready (events w) ->
    ready_first "" plain_ready (events (event_loop Plain.run_callback sched w)).
Proof.
  induction sched as [|i sched IH]; intros w H; simpl; [exact H|].
  destruct (nth_error (tasks w) i) as [t|]; [|apply IH, H].
  apply IH. apply plain_callback_ready_first. exact H.
Qed.

Ltac from_result_tac :=
  cbn [rendered_from_result];
  repeat match goal with
         | |- _ /\ _ => split
         | |- True => exact I
         | |- exists _ _, _ =>
             eexists _, _; split;
             [left; reflexivity | split; [eassumption | reflexivity]]
         end; auto.

Lemma dotpoll_poll_from_result (jobId : JsVal) (w : World) :
  rendered_from_result DotPoll.RENDER_URL (events w) ->
  rendered_from_result DotPoll.RENDER_URL (events (call (DotPoll.poll jobId) w)).
Proof.
  intros H. unfold DotPoll.poll, DotPoll.renderDot. js_unfold. cbn.
  destruct (network w) as [|[| |r] rest]; cbn; try solve [from_result_tac].
  destruct (ok r) eqn:Hok; cbn; try solve [from_result_tac].
  destruct (viz_svg (platform w) (body_text r)); cbn; solve [from_result_tac].
Qed.

Lemma dotpoll_run_from_result (w : World) :
  rendered_from_result DotPoll.RENDER_URL (events w) ->
  rendered_from_result DotPoll.RENDER_URL (events (call DotPoll.run w)).
Proof.
  intros H. unfold DotPoll.run. js_unfold. cbn.
  destruct (network w) as [|[| |r] rest] eqn:Hnet; cbn; try solve [from_result_tac].
  destruct (body_json r) as [data|]; cbn; try solve [from_result_tac].
  destruct (getProp data "job_id") as [e|job]; cbn; try solve [from_result_tac].
  match goal with |- context [DotPoll.poll job ?w0] =>
    assert (Hp : rendered_from_result DotPoll.RENDER_URL
                   (events (call (DotPoll.poll job) w0)))
      by (apply dotpoll_poll_from_result; cbn; from_result_tac);
    unfold call, exec, spawn in Hp;
    destruct (DotPoll.poll job w0) as [[a|e|] w'']; cbn in *; auto
  end.
Qed.

Lemma dotpoll_callback_from_result (cb : Callback) (w : World) :
  rendered_from_result DotPoll.RENDER_URL (events w) ->
  rendered_from_result DotPoll.RENDER_URL
    (events (call (DotPoll.run_callback cb) w)).
Proof.
  intros H. destruct cb as [job|r|r|img url|blob url]; cbn [DotPoll.run_callback].
  - apply dotpoll_poll_from_result, H.
  - unfold DotPoll.renderDot_settled. js_unfold. destruct r; cbn; exact H.
  - unfold DotPoll.image_settled, DotPoll.download. js_unfold.
    destruct r as [e|src]; cbn; try solve [from_result_tac].
    destruct (network w) as [|[| |r] rest]; cbn; try solve [from_result_tac].
    rewrite Nat.eqb_refl. cbn. from_result_tac.
  - exact H.
  - exact H.
Qed.

Lemma dotpoll_loop_from_result (sched : list nat) :
  forall w : World,
    rendered_from_result DotPoll.RENDER_URL (events w) ->
    rendered_from_result DotPoll.RENDER_URL
      (events (event_loop DotPoll.run_callback sched w)).
Proof.
  induction sched as [|i sched IH]; intros w H; simpl; [exact H|].
  destruct (nth_error (tasks w) i) as [t|]; [|apply IH, H].
  apply IH. apply dotpoll_callback_from_result. exact H.
Qed.

(** *** Rendering twice (C8) *)

Lemma guarded_render_twice (job : JsVal) (w : World) (o : FetchOutcome)
    (rest : list FetchOutcome) :
  network w = o :: o :: rest ->
  visible (call (Guarded.render job) (call (Guarded.render job) w))
  = visible (call (Guarded.render job) w).
Proof.
  intros Hnet. unfold Guarded.render, visible. js_unfold. cbn.
  rewrite Hnet. cbn.
  destruct o as [| |r]; cbn; try reflexivity.
  destruct (ok r) eqn:Hok; cbn; rewrite ?Hok; cbn; try reflexivity.
  destruct (viz_svg (platform w) (body_text r)) as [e|markup] eqn:Hviz;
    cbn; rewrite ?Hok; cbn; rewrite ?Hviz; cbn; reflexivity.
Qed.

Lemma plain_render_twice (job : JsVal) (w : World) (o : FetchOutcome)
    (rest : list FetchOutcome) :
  network w = o :: o :: rest ->
  visible (call (Plain.render job) (call (Plain.render job) w))
  = visible (call (Plain.render job) w).
Proof.
  intros Hnet. unfold Plain.render, visible. js_unfold. cbn.
  rewrite Hnet. cbn.
  destruct o as [| |r]; cbn; try reflexivity.
  destruct (viz_svg (platform w) (body_text r)) as [e|markup] eqn:Hviz;
    cbn; rewrite ?Hviz; cbn; reflexivity.
Qed.

Lemma dotpoll_render_twice (dot : string) (w : World) :
  tasks w = [] ->
  let once := event_loop DotPoll.run_callback [0] (call (DotPoll.renderDot dot) w) in
  let twice := event_loop DotPoll.run_callback [0] (call (DotPoll.renderDot dot) once) in
  visible twice = visible once /\ currentDot twice = currentDot once.
Proof.
  intros Ht. cbn zeta. unfold DotPoll.renderDot, visible. js_unfold. cbn.
  destruct (viz_svg (platform w) dot) as [e|markup] eqn:Hviz;
    cbn; rewrite Ht; cbn; rewrite ?Hviz; cbn; auto.
Qed.

(** *** Exporting (C1, C5) *)

Lemma guarded_downloadSVG_file (w : World) (svg : Element) :
  currentSVG w = Some svg ->
  downloads (call Guarded.downloadSVG w)
  = ("architecture.svg",
     {| blob_data := outerHTML svg; blob_type := "image/svg+xml;charset=utf-8" |})
    :: downloads w.
Proof.
  intros H. unfold Guarded.downloadSVG, Guarded.save, downloads. js_unfold.
  cbn. rewrite H. cbn. rewrite Nat.eqb_refl. reflexivity.
Qed.

Lemma plain_downloadSVG_file (w : World) (svg : Element) :
  currentSVG w = Some svg ->
  downloads (call Plain.downloadSVG w)
  = ("architecture.svg",
     {| blob_data := outerHTML svg; blob_type := "image/svg+xml" |})
    :: downloads w.
Proof.
  intros H. unfold Plain.downloadSVG, Plain.save, downloads. js_unfold.
  cbn. rewrite H. cbn. rewrite Nat.eqb_refl. reflexivity.
Qed.

Lemma dotpoll_downloadSVG_file (w : World) :
  downloads (call DotPoll.downloadSVG w)
  = ("architecture.svg",
     {| blob_data := currentDot w; blob_type := "image/svg+xml" |})
    :: downloads w.
Proof.
  unfold DotPoll.downloadSVG, DotPoll.download, downloads. js_unfold.
  cbn. rewrite Nat.eqb_refl. reflexivity.
Qed.

Lemma guarded_export_before_render (w : World) :
  currentSVG w = None ->
  call Guarded.downloadSVG w = w /\ call Guarded.downloadPNG w = w.
Proof.
  intros H. unfold Guarded.downloadSVG, Guarded.downloadPNG. js_unfold.
  cbn. rewrite H. cbn. auto.
Qed.

Lemma plain_export_before_render (w : World) :
  currentSVG w = None ->
  downloads (call Plain.downloadSVG w) = downloads w
  /\ downloads (call Plain.downloadPNG w) = downloads w
  /\ tasks (call Plain.downloadSVG w) = tasks w
  /\ tasks (call Plain.downloadPNG w) = tasks w
  /\ (exists e, uncaught (call Plain.downloadSVG w) = e :: uncaught w)
  /\ (exists e, uncaught (call Plain.downloadPNG w) = e :: uncaught w).
Proof.
  intros H. unfold Plain.downloadSVG, Plain.downloadPNG, downloads, uncaught.
  js_unfold. cbn. rewrite H. cbn. repeat split; eauto.
Qed.

(** *** A failing status request (C6) *)

Lemma guarded_poll_failure (job : JsVal) (w : World) (o : FetchOutcome)
    (rest : list FetchOutcome) :
  network w = o :: rest ->
  failed o = true ->
  let w' := call (Guarded.poll job) w in
  tasks w' = (tasks w ++ [Timeout 3000 (CbPoll job)])%list
  /\ uncaught w' = uncaught w
  /\ render_calls w' = render_calls w
  /\ status_text w' = "Waiting for backend...".
Proof.
  intros Hnet Hf. cbn zeta. unfold Guarded.poll, uncaught, render_calls.
  js_unfold. cbn. rewrite Hnet.
  destruct o as [| |r]; cbn in *; try discriminate; auto.
  apply negb_true_iff in Hf. rewrite Hf. cbn. auto.
Qed.

Lemma plain_poll_network_error (job : JsVal) (w : World)
    (rest : list FetchOutcome) :
  network w = NetworkError :: rest ->
  let w' := call (Plain.poll job) w in
  tasks w' = tasks w
  /\ uncaught w' = TypeError "Failed to fetch" :: uncaught w
  /\ status_text w' = status_text w.
Proof.
  intros Hnet. cbn zeta. unfold Plain.poll, uncaught. js_unfold. cbn.
  rewrite Hnet. cbn. auto.
Qed.

Lemma plain_poll_undecodable (job : JsVal) (w : World) (r : Response)
    (rest : list FetchOutcome) :
  network w = Reply r :: rest ->
  body_json r = None ->
  let w' := call (Plain.poll job) w in
  tasks w' = tasks w
  /\ uncaught w' = SyntaxError "Unexpected token in JSON" :: uncaught w.
Proof.
  intros Hnet Hj. cbn zeta. unfold Plain.poll, uncaught. js_unfold. cbn.
  rewrite Hnet. cbn. rewrite Hj. cbn. auto.
Qed.

(** *** Export leaves the session alone (C10) *)

Lemma guarded_export_frame (w : World) :
  session (call Guarded.downloadSVG w) = session w
  /\ session (call Guarded.downloadPNG w) = session w
  /\ (forall img url, session (call (Guarded.img_onload img url) w) = session w)
  /\ (forall blob url,
         session (call (Guarded.toBlob_callback blob url) w) = session w).
Proof.
  unfold Guarded.downloadSVG, Guarded.downloadPNG, Guarded.img_onload,
    Guarded.toBlob_callback, Guarded.save, session.
  js_unfold. cbn. split; [|split; [|split]].
  - destruct (currentSVG w) eqn:Hc; cbn; rewrite ?Nat.eqb_refl; cbn;
      rewrite ?Hc; reflexivity.
  - destruct (currentSVG w) eqn:Hc; cbn; rewrite ?Nat.eqb_refl; cbn;
      [|rewrite ?Hc; reflexivity].
    destruct (image_size _ _) as [[wd ht]|]; cbn; rewrite ?Hc; reflexivity.
  - reflexivity.
  - intros [b|] url; cbn; rewrite ?Nat.eqb_refl; cbn; reflexivity.
Qed.

Lemma plain_export_frame (w : World) :
  session (call Plain.downloadSVG w) = session w
  /\ session (call Plain.downloadPNG w) = session w
  /\ (forall img url, session (call (Plain.img_onload img url) w) = session w)
  /\ (forall blob, session (call (Plain.toBlob_callback blob) w) = session w).
Proof.
  unfold Plain.downloadSVG, Plain.downloadPNG, Plain.img_onload,
    Plain.toBlob_callback, Plain.save, session.
  js_unfold. cbn. split; [|split; [|split]].
  - destruct (currentSVG w) eqn:Hc; cbn; rewrite ?Nat.eqb_refl; cbn;
      rewrite ?Hc; reflexivity.
  - destruct (currentSVG w) eqn:Hc; cbn; rewrite ?Nat.eqb_refl; cbn;
      [|rewrite ?Hc; reflexivity].
    destruct (image_size _ _) as [[wd ht]|]; cbn; rewrite ?Hc; reflexivity.
  - reflexivity.
  - intros [b|]; cbn; rewrite ?Nat.eqb_refl; cbn; reflexivity.
Qed.

Lemma dotpoll_export_frame (w : World) :
  session (call DotPoll.downloadSVG w) = session w
  /\ session (call DotPoll.downloadPNG w) = session w
  /\ (forall r, session (call (DotPoll.image_settled r) w) = session w).
Proof.
  unfold DotPoll.downloadSVG, DotPoll.downloadPNG, DotPoll.image_settled,
    DotPoll.download, session.
  js_unfold. cbn. split; [|split].
  - rewrite Nat.eqb_refl. cbn. reflexivity.
  - reflexivity.
  - intros [e|src]; cbn; [reflexivity|].
    destruct (network w) as [|[| |r] rest]; cbn; rewrite ?Nat.eqb_refl;
      cbn; reflexivity.
Qed.

Lemma cons_neq {A} (x : A) (l : list A) : x :: l <> l.
Proof.
  intros H. apply (f_equal (@List.length A)) in H. simpl in H. lia.
Qed.

Lemma guarded_session_moves_in_render (w : World) (job : JsVal) :
  (render_calls (call Guarded.run w) = render_calls w ->
   session (call Guarded.run w) = session w)
  /\ (render_calls (call (Guarded.poll job) w) = render_calls w ->
      session (call (Guarded.poll job) w) = session w).
Proof.
  unfold Guarded.run, Guarded.poll, Guarded.render, session, render_calls.
  js_unfold. cbn. split.
  - destruct (is_empty (trim (repo_value w))); cbn; [reflexivity|].
    destruct (lone_surrogate (trim (repo_value w))); cbn; [reflexivity|].
    destruct (network w) as [|[| |r] rest]; cbn; try reflexivity.
    destruct (ok r); cbn; try reflexivity.
    destruct (body_json r) as [data|]; cbn; try reflexivity.
    destruct (getProp data "job_id") as [e|j]; cbn; try reflexivity.
    destruct rest as [|[| |r'] rest']; cbn; try reflexivity.
    destruct (ok r'); cbn; try reflexivity.
    destruct (body_json r') as [s|]; cbn; try reflexivity.
    destruct (getProp s "ready") as [e|v]; cbn; try reflexivity.
    destruct (truthy v); cbn; try reflexivity.
    destruct rest' as [|[| |r''] rest'']; cbn;
      try (intros H; exfalso; exact (cons_neq _ _ H)).
    destruct (ok r''); cbn;
      try (intros H; exfalso; exact (cons_neq _ _ H)).
    destruct (viz_svg (platform w) (body_text r'')); cbn;
      intros H; exfalso; exact (cons_neq _ _ H).
  - destruct (network w) as [|[| |r'] rest']; cbn; try reflexivity.
    destruct (ok r'); cbn; try reflexivity.
    destruct (body_json r') as [s|]; cbn; try reflexivity.
    destruct (getProp s "ready") as [e|v]; cbn; try reflexivity.
    destruct (truthy v); cbn; try reflexivity.
    destruct rest' as [|[| |r''] rest'']; cbn;
      try (intros H; exfalso; exact (cons_neq _ _ H)).
    destruct (ok r''); cbn;
      try (intros H; exfalso; exact (cons_neq _ _ H)).
    destruct (viz_svg (platform w) (body_text r'')); cbn;
      intros H; exfalso; exact (cons_neq _ _ H).
Qed.

Lemma plain_session_moves_in_render (w : World) (job : JsVal) :
  (render_calls (call Plain.run w) = render_calls w ->
   session (call Plain.run w) = session w)
  /\ (render_calls (call (Plain.poll job) w) = render_calls w ->
      session (call (Plain.poll job) w) = session w).
Proof.
  unfold Plain.run, Plain.poll, Plain.render, session, render_calls.
  js_unfold. cbn. split.
  - destruct (lone_surrogate (repo_value w)); cbn; [reflexivity|].
    destruct (network w) as [|[| |r] rest]; cbn; try reflexivity.
    destruct (body_json r) as [data|]; cbn; try reflexivity.
    destruct (getProp data "job_id") as [e|j]; cbn; try reflexivity.
    destruct rest as [|[| |r'] rest']; cbn; try reflexivity.
    destruct (body_json r') as [s|]; cbn; try reflexivity.
    destruct (getProp s "ready") as [e|v]; cbn; try reflexivity.
    destruct (truthy v); cbn; try reflexivity.
    destruct rest' as [|[| |r''] rest'']; cbn;
      try (intros H; exfalso; exact (cons_neq _ _ H)).
    destruct (viz_svg (platform w) (body_text r'')); cbn;
      intros H; exfalso; exact (cons_neq _ _ H).
  - destruct (network w) as [|[| |r'] rest']; cbn; try reflexivity.
    destruct (body_json r') as [s|]; cbn; try reflexivity.
    destruct (getProp s "ready") as [e|v]; cbn; try reflexivity.
    destruct (truthy v); cbn; try reflexivity.
    destruct rest' as [|[| |r''] rest'']; cbn;
      try (intros H; exfalso; exact (cons_neq _ _ H)).
    destruct (viz_svg (platform w) (body_text r'')); cbn;
      intros H; exfalso; exact (cons_neq _ _ H).
Qed.

(** *** The submission request (C9) *)

Lemma guarded_callback_posts (cb : Callback) (w : World) :
  posts (call (Guarded.run_callback cb) w) = posts w.
Proof.
  destruct cb as [job|r|r|img url|blob url]; cbn [Guarded.run_callback];
    unfold Guarded.poll, Guarded.render, Guarded.img_onload,
      Guarded.toBlob_callback, Guarded.save, posts, requests;
    js_unfold; cbn; try reflexivity.
  - destruct (network w) as [|[| |r] rest]; cbn; try reflexivity.
    destruct (ok r); cbn; try reflexivity.
    destruct (body_json r) as [s|]; cbn; try reflexivity.
    destruct (getProp s "ready") as [e|v]; cbn; try reflexivity.
    destruct (truthy v); cbn; try reflexivity.
    destruct rest as [|[| |r'] rest']; cbn; try reflexivity.
    destruct (ok r'); cbn; try reflexivity.
    destruct (viz_svg (platform w) (body_text r')); cbn; reflexivity.
  - destruct blob as [b|]; cbn; rewrite ?Nat.eqb_refl; cbn; reflexivity.
Qed.

Lemma plain_callback_posts (cb : Callback) (w : World) :
  posts (call (Plain.run_callback cb) w) = posts w.
Proof.
  destruct cb as [job|r|r|img url|blob url]; cbn [Plain.run_callback];
    unfold Plain.poll, Plain.render, Plain.img_onload,
      Plain.toBlob_callback, Plain.save, posts, requests;
    js_unfold; cbn; try reflexivity.
  - destruct (network w) as [|[| |r] rest]; cbn; try reflexivity.
    destruct (body_json r) as [s|]; cbn; try reflexivity.
    destruct (getProp s "ready") as [e|v]; cbn; try reflexivity.
    destruct (truthy v); cbn; try reflexivity.
    destruct rest as [|[| |r'] rest']; cbn; try reflexivity.
    destruct (viz_svg (platform w) (body_text r')); cbn; reflexivity.
  - destruct blob as [b|]; cbn; rewrite ?Nat.eqb_refl; cbn; reflexivity.
Qed.

Lemma dotpoll_callback_posts (cb : Callback) (w : World) :
  posts (call (DotPoll.run_callback cb) w) = posts w.
Proof.
  destruct cb as [job|r|r|img url|blob url]; cbn [DotPoll.run_callback];
    unfold DotPoll.poll, DotPoll.renderDot, DotPoll.renderDot_settled,
      DotPoll.image_settled, DotPoll.download, posts, requests;
    js_unfold; cbn; try reflexivity.
  - destruct (network w) as [|[| |r] rest]; cbn; try reflexivity.
    destruct (ok r); cbn; try reflexivity.
    destruct (viz_svg (platform w) (body_text r)); cbn; reflexivity.
  - destruct r; reflexivity.
  - destruct r as [e|src]; cbn; try reflexivity.
    destruct (network w) as [|[| |r] rest]; cbn; rewrite ?Nat.eqb_refl; cbn;
      reflexivity.
Qed.

Lemma loop_posts (f : Callback -> M unit) (sched : list nat) :
  (forall cb w, posts (call (f cb) w) = posts w) ->
  forall w, posts (event_loop f sched w) = posts w.
Proof.
  intros Hf. induction sched as [|i sched IH]; intros w; simpl; [reflexivity|].
  destruct (nth_error (tasks w) i) as [t|]; [|apply IH].
  rewrite IH. fold (call (f (callback_of t)) (set_tasks (remove_nth i (tasks w)) w)).
  rewrite Hf. reflexivity.
Qed.

Lemma guarded_run_posts (w : World) :
  trim (repo_value w) <> "" ->
  lone_surrogate (trim (repo_value w)) = false ->
  posts (call Guarded.run w)
  = POST (Guarded.API_BASE ++ "/run?repo_url="
            ++ uri_encode (trim (repo_value w))) [] None
    :: posts w.
Proof.
  intros Hne Hs. apply is_empty_false in Hne.
  unfold Guarded.run. js_unfold. cbn. rewrite Hne. cbn. rewrite Hs. cbn.
  destruct (network w) as [|[| |r] rest]; cbn; try reflexivity.
  destruct (ok r); cbn; try reflexivity.
  destruct (body_json r) as [data|]; cbn; try reflexivity.
  destruct (getProp data "job_id") as [e|job]; cbn; try reflexivity.
  match goal with |- context [Guarded.poll job ?w0] =>
    pose proof (guarded_callback_posts (CbPoll job) w0) as Hp;
    cbn [Guarded.run_callback] in Hp; unfold call, exec, spawn in Hp;
    destruct (Guarded.poll job w0) as [[a|e|] w'']; cbn in *; rewrite Hp;
    reflexivity
  end.
Qed.

Lemma plain_run_posts (w : World) :
  lone_surrogate (repo_value w) = false ->
  posts (call Plain.run w)
  = POST ("/run?repo_url=" ++ uri_encode (repo_value w)) [] None
    :: posts w.
Proof.
  intros Hs. unfold Plain.run. js_unfold. cbn. rewrite Hs. cbn.
  destruct (network w) as [|[| |r] rest]; cbn; try reflexivity.
  destruct (body_json r) as [data|]; cbn; try reflexivity.
  destruct (getProp data "job_id") as [e|job]; cbn; try reflexivity.
  match goal with |- context [Plain.poll job ?w0] =>
    pose proof (plain_callback_posts (CbPoll job) w0) as Hp;
    cbn [Plain.run_callback] in Hp; unfold call, exec, spawn in Hp;
    destruct (Plain.poll job w0) as [[a|e|] w'']; cbn in *; rewrite Hp;
    reflexivity
  end.
Qed.

Lemma jobid_run_posts (w : World) :
  lone_surrogate (repo_value w) = false ->
  posts (call JobId.run w)
  = POST (JobId.API ++ "/run?repo_url=" ++ uri_encode (repo_value w))
      [] None
    :: posts w.
Proof.
  intros Hs. unfold JobId.run. js_unfold. cbn. rewrite Hs. cbn.
  destruct (network w) as [|[| |r] rest]; cbn; try reflexivity.
  destruct (body_json r) as [data|]; cbn; try reflexivity.
  destruct (getProp data "job_id") as [e|job]; cbn; reflexivity.
Qed.

Lemma dotpoll_run_posts (w : World) :
  posts (call DotPoll.run w)
  = POST (DotPoll.RENDER_URL ++ "/run") [("Content-Type", "application/json")]
      (Some (JSON_stringify_repo_url (repo_value w)))
    :: posts w.
Proof.
  unfold DotPoll.run. js_unfold. cbn.
  destruct (network w) as [|[| |r] rest]; cbn; try reflexivity.
  destruct (body_json r) as [data|]; cbn; try reflexivity.
  destruct (getProp data "job_id") as [e|job]; cbn; try reflexivity.
  match goal with |- context [DotPoll.poll job ?w0] =>
    pose proof (dotpoll_callback_posts (CbPoll job) w0) as Hp;
    cbn [DotPoll.run_callback] in Hp; unfold call, exec, spawn in Hp;
    destruct (DotPoll.poll job w0) as [[a|e|] w'']; cbn in *; rewrite Hp;
    reflexivity
  end.
Qed.

Lemma guarded_run_reads_job_id (w : World) (r : Response) (data job : JsVal) :
  trim (repo_value w) <> "" ->
  lone_surrogate (trim (repo_value w)) = false ->
  network w = [Reply r] ->
  ok r = true ->
  body_json r = Some data ->
  getProp data "job_id" = inr job ->
  requests (call Guarded.run w)
  = GET (Guarded.API_BASE ++ "/status/" ++ toString job)
    :: POST (Guarded.API_BASE ++ "/run?repo_url="
               ++ uri_encode (trim (repo_value w))) [] None
    :: requests w.
Proof.
  intros Hne Hs Hnet Hok Hj Hp. apply is_empty_false in Hne.
  unfold Guarded.run, Guarded.poll, requests. js_unfold. cbn.
  rewrite Hne. cbn. rewrite Hs. cbn. rewrite Hnet. cbn. rewrite Hok. cbn. rewrite Hj. cbn.
  rewrite Hp. cbn. reflexivity.
Qed.

Lemma plain_run_reads_job_id (w : World) (r : Response) (data job : JsVal) :
  lone_surrogate (repo_value w) = false ->
  network w = [Reply r] ->
  body_json r = Some data ->
  getProp data "job_id" = inr job ->
  requests (call Plain.run w)
  = GET ("/status/" ++ toString job)
    :: POST ("/run?repo_url=" ++ uri_encode (repo_value w)) [] None
    :: requests w.
Proof.
  intros Hs Hnet Hj Hp.
  unfold Plain.run, Plain.poll, requests. js_unfold. cbn.
  rewrite Hs. cbn. rewrite Hnet. cbn. rewrite Hj. cbn. rewrite Hp. cbn. reflexivity.
Qed.

Lemma jobid_run_reads_job_id (w : World) (r : Response) (data job : JsVal) :
  lone_surrogate (repo_value w) = false ->
  network w = [Reply r] ->
  body_json r = Some data ->
  getProp data "job_id" = inr job ->
  out_text (call JobId.run w) = "Job ID: " ++ toString job.
Proof.
  intros Hs Hnet Hj Hp.
  unfold JobId.run. js_unfold. cbn.
  rewrite Hs. cbn. rewrite Hnet. cbn. rewrite Hj. cbn. rewrite Hp. cbn. reflexivity.
Qed.

Lemma dotpoll_run_reads_job_id (w : World) (r : Response) (data job : JsVal) :
  network w = [Reply r] ->
  body_json r = Some data ->
  getProp data "job_id" = inr job ->
  requests (call DotPoll.run w)
  = GET (DotPoll.RENDER_URL ++ "/result/" ++ toString job ++ "/dot")
    :: POST (DotPoll.RENDER_URL ++ "/run") [("Content-Type", "application/json")]
         (Some (JSON_stringify_repo_url (repo_value w)))
    :: requests w.
Proof.
  intros Hnet Hj Hp.
  unfold DotPoll.run, DotPoll.poll, requests. js_unfold. cbn.
  rewrite Hnet. cbn. rewrite Hj. cbn. rewrite Hp. cbn. reflexivity.
Qed.

(** ** The claims *)

(** C1 (code defect, part_000).  The vector export is meant to write the
    serialization of the rendered image.  The first two scripts of main.js
    do ([guarded_downloadSVG_file], [plain_downloadSVG_file]); part_000's
    [downloadSVG] writes the graph-description text instead
    ([dotpoll_downloadSVG_file]).  Here: after part_000 has polled and
    rendered [sample_dot], the diagram shows the SVG markup, and the file
    architecture.svg holds the DOT text. *)
Theorem C1_part000_svg_export_writes_dot_text :
  let rendered :=
    event_loop DotPoll.run_callback [0]
      (call (DotPoll.poll (VStr "j1")) (fresh_page "" [text_reply 200 sample_dot])) in
  map outerHTML (diagram rendered)
    = ["<svg><title>digraph { a -> b }</title></svg>"]
  /\ downloads (call DotPoll.downloadSVG rendered)
     = [("architecture.svg",
         {| blob_data := "digraph { a -> b }"; blob_type := "image/svg+xml" |})].
Proof. vm_compute. split; reflexivity. Qed.

(** C2 (code defect, all scripts but the first).  Submitting an empty
    repository URL must not issue a request.  The first script returns
    after an alert ([guarded_run_empty_no_request]); the other three send
    the submission with an empty [repo_url]. *)
Theorem C2_unguarded_scripts_submit_an_empty_url :
  requests (call Plain.run (fresh_page "" []))
    = [query_submission "" ""]
  /\ requests (call JobId.run (fresh_page "" []))
     = [query_submission JobId.API ""]
  /\ requests (call DotPoll.run (fresh_page "" []))
     = [body_submission DotPoll.RENDER_URL ""].
Proof. vm_compute. repeat split; reflexivity. Qed.

(** C3 (code defect, second script and part_000).  A backend answering the
    submission with HTTP 500 must lead to a visible error state.  The first
    script shows "Failed to connect to backend." ([guarded_run_backend_error]).
    The second script and part_000 never look at the status: with a body
    that is not JSON the run dies with an uncaught rejection and the status
    line keeps the progress text written before the request; with a JSON
    error body, [poll] is started on the job [undefined]. *)
Theorem C3_unguarded_scripts_show_no_error_on_http_500 :
  let plain := call Plain.run
                 (fresh_page sample_repo [text_reply 500 "Internal Server Error"]) in
  let dotpoll := call DotPoll.run
                   (fresh_page sample_repo [text_reply 500 "Internal Server Error"]) in
  let plain_json := call Plain.run
                      (fresh_page sample_repo
                         [json_reply 500 (VObj [("detail", VStr "boom")])]) in
  (status_text plain = "Running pipeline..."
   /\ tasks plain = []
   /\ uncaught plain = [SyntaxError "Unexpected token in JSON"])
  /\ (status_text dotpoll = "Running pipeline..."
      /\ tasks dotpoll = []
      /\ uncaught dotpoll = [SyntaxError "Unexpected token in JSON"])
  /\ (status_text plain_json = "Running pipeline..."
      /\ hd_error (requests plain_json) = Some (GET "/status/undefined")).
Proof. vm_compute. repeat split; reflexivity. Qed.

(** C5 (code defect, part_000).  Exporting before any render must produce
    no file.  The first script returns at its guard
    ([guarded_export_before_render]); the second throws before any file is
    made ([plain_export_before_render]); part_000's [downloadSVG] saves an
    empty architecture.svg. *)
Theorem C5_part000_exports_an_empty_file_before_render :
  currentDot (fresh_page "" []) = ""
  /\ diagram (fresh_page "" []) = []
  /\ downloads (call DotPoll.downloadSVG (fresh_page "" []))
     = [("architecture.svg",
         {| blob_data := ""; blob_type := "image/svg+xml" |})].
Proof. vm_compute. repeat split; reflexivity. Qed.

(** C6 (code defect, second script).  A failing status request must be
    swallowed and the poll retried after 2000 or 3000 ms.  The first
    script does so, after 3000 ms ([guarded_poll_failure]).  In the second
    script a network error rejects [poll]: nothing catches it and no retry
    is scheduled ([plain_poll_network_error]); the same holds for a
    response whose body is not JSON ([plain_poll_undecodable]). *)
Theorem C6_second_script_poll_dies_on_network_error :
  let w := call (Plain.poll (VStr "j1")) (fresh_page sample_repo [NetworkError]) in
  tasks w = []
  /\ uncaught w = [TypeError "Failed to fetch"]
  /\ event_loop Plain.run_callback [0; 0; 0] w = w.
Proof. vm_compute. repeat split; reflexivity. Qed.

(** C4.  When the backend answers finitely many times "not ready" and then
    "ready", polling ends and the ready path is entered exactly once: after
    one callback per "not ready" answer no callback is left, so that the
    event loop has nothing more to run, and the log holds one more call of
    [render] than before.  In main.js the answers are those of the status
    endpoint; part_000 polls the result endpoint, where "not ready" is a
    response without success status, and one more callback delivers the
    rendered element. *)
Theorem C4_poll_ends_with_one_render :
  (forall (w : World) (job : JsVal) (pre : list FetchOutcome)
          (o : FetchOutcome) (rest : list FetchOutcome),
      tasks w = [] ->
      network w = (pre ++ o :: rest)%list ->
      Forall (fun a => success a = true /\ readiness a = Some false) pre ->
      success o = true -> readiness o = Some true ->
      let w' := event_loop Guarded.run_callback (repeat 0 (List.length pre))
                  (call (Guarded.poll job) w) in
      render_calls w' = job :: render_calls w
      /\ tasks w' = []
      /\ forall sched, event_loop Guarded.run_callback sched w' = w')
  /\ (forall (w : World) (job : JsVal) (pre : list FetchOutcome)
             (o : FetchOutcome) (rest : list FetchOutcome),
         tasks w = [] ->
         network w = (pre ++ o :: rest)%list ->
         Forall (fun a => readiness a = Some false) pre ->
         readiness o = Some true ->
         let w' := event_loop Plain.run_callback (repeat 0 (List.length pre))
                     (call (Plain.poll job) w) in
         render_calls w' = job :: render_calls w
         /\ tasks w' = []
         /\ forall sched, event_loop Plain.run_callback sched w' = w')
  /\ (forall (w : World) (jobId : JsVal) (pre : list FetchOutcome)
             (r : Response) (rest : list FetchOutcome),
         tasks w = [] ->
         network w = (pre ++ Reply r :: rest)%list ->
         Forall (fun a => exists r', a = Reply r' /\ ok r' = false) pre ->
         ok r = true ->
         let w' := event_loop DotPoll.run_callback
                     (repeat 0 (List.length pre + 1))
                     (call (DotPoll.poll jobId) w) in
         render_calls w' = VStr (body_text r) :: render_calls w
         /\ tasks w' = []
         /\ forall sched, event_loop DotPoll.run_callback sched w' = w').
Proof.
  split; [|split].
  - intros w job pre o rest Ht Hnet Hpre Hs Hr.
    destruct (guarded_poll_until_ready pre w job o rest Ht Hnet Hpre Hs Hr)
      as [Hc Ht'].
    cbn zeta. repeat split; auto.
    intros sched. apply event_loop_idle, Ht'.
  - intros w job pre o rest Ht Hnet Hpre Hr.
    destruct (plain_poll_until_ready pre w job o rest Ht Hnet Hpre Hr)
      as [Hc Ht'].
    cbn zeta. repeat split; auto.
    intros sched. apply event_loop_idle, Ht'.
  - intros w jobId pre r rest Ht Hnet Hpre Hok.
    destruct (dotpoll_poll_until_ready pre w jobId r rest Ht Hnet Hpre Hok)
      as [Hc Ht'].
    cbn zeta. repeat split; auto.
    intros sched. apply event_loop_idle, Ht'.
Qed.

Lemma C4_poll_ends_with_one_render_witness :
  let answers := [not_ready_yet; not_ready_yet; ready_now; text_reply 200 sample_dot] in
  let w' := event_loop Guarded.run_callback [0; 0]
              (call (Guarded.poll (VStr "j1")) (fresh_page sample_repo answers)) in
  let failures := [text_reply 404 "Not Found"; text_reply 404 "Not Found"] in
  let d' := event_loop DotPoll.run_callback [0; 0; 0]
              (call (DotPoll.poll (VStr "j1"))
                 (fresh_page sample_repo (failures ++ [text_reply 200 sample_dot]))) in
  let p' := event_loop Plain.run_callback [0]
              (call (Plain.poll (VStr "j1"))
                 (fresh_page sample_repo [not_ready_yet; ready_now])) in
  (render_calls w' = [VStr "j1"] /\ tasks w' = [])
  /\ (render_calls p' = [VStr "j1"] /\ tasks p' = [])
  /\ (render_calls d' = [VStr sample_dot] /\ tasks d' = []).
Proof.
  destruct C4_poll_ends_with_one_render as (HG & HP & HD).
  split; [|split].
  - destruct (HG (fresh_page sample_repo
                    [not_ready_yet; not_ready_yet; ready_now;
                     text_reply 200 sample_dot])
                 (VStr "j1") [not_ready_yet; not_ready_yet] ready_now
                 [text_reply 200 sample_dot])
      as (Hc & Ht & _).
    + reflexivity.
    + reflexivity.
    + repeat constructor.
    + reflexivity.
    + reflexivity.
    + split; [exact Hc | exact Ht].
  - destruct (HP (fresh_page sample_repo [not_ready_yet; ready_now])
                 (VStr "j1") [not_ready_yet] ready_now [])
      as (Hc & Ht & _).
    + reflexivity.
    + reflexivity.
    + repeat constructor.
    + reflexivity.
    + split; [exact Hc | exact Ht].
  - destruct (HD (fresh_page sample_repo
                    [text_reply 404 "Not Found"; text_reply 404 "Not Found";
                     text_reply 200 sample_dot])
                 (VStr "j1")
                 [text_reply 404 "Not Found"; text_reply 404 "Not Found"]
                 {| status := 200; body_text := sample_dot; body_json := None;
                    content_type := "text/plain" |} [])
      as (Hc & Ht & _).
    + reflexivity.
    + reflexivity.
    + repeat constructor; eexists; split; reflexivity.
    + reflexivity.
    + split; [exact Hc | exact Ht].
Defined.

(** C7 as stated fails on part_000: its [poll] never asks for the status;
    it requests the result right after the submission.  Even when any
    answer to a status request is taken as a report of readiness, the log
    of a run has a request for the result with no such report before it. *)
Lemma C7_part000_requests_result_before_any_readiness_report :
  ~ ready_first DotPoll.RENDER_URL (fun _ => true)
      (events (call DotPoll.run
                 (fresh_page sample_repo [job_created; text_reply 404 "Not Found"]))).
Proof.
  assert (E : events (call DotPoll.run
                        (fresh_page sample_repo
                           [job_created; text_reply 404 "Not Found"]))
              = [ EvFetch (GET (DotPoll.RENDER_URL ++ "/result/" ++ "j1" ++ "/dot"))
                    (text_reply 404 "Not Found");
                  EvFetch (body_submission DotPoll.RENDER_URL sample_repo)
                    job_created ])
    by (vm_compute; reflexivity).
  rewrite E. intros [H _].
  destruct (H "j1" eq_refl) as (o & [Heq | []] & _).
  vm_compute in Heq. discriminate Heq.
Qed.

(** C7 (amended).  In the two scripts of main.js that render, every call
    of [render] and every request for a result in the log of a run comes
    after a status response that reported that job ready (with a success
    status, in the first script).  part_000 does not ask for the status:
    it polls the result itself, and every call of [renderDot] comes after
    a successful response to a request for a result, whose text it
    renders.  Both hold in every state a run reaches, whatever the order
    in which the browser runs the pending callbacks. *)
Theorem C7_render_only_after_readiness :
  (forall (w : World) (sched : list nat),
      ready_first Guarded.API_BASE guarded_ready (events w) ->
      ready_first Guarded.API_BASE guarded_ready
        (events (event_loop Guarded.run_callback sched (call Guarded.run w))))
  /\ (forall (w : World) (sched : list nat),
         ready_first "" plain_ready (events w) ->
         ready_first "" plain_ready
           (events (event_loop Plain.run_callback sched (call Plain.run w))))
  /\ (forall (w : World) (sched : list nat),
         rendered_from_result DotPoll.RENDER_URL (events w) ->
         rendered_from_result DotPoll.RENDER_URL
           (events (event_loop DotPoll.run_callback sched (call DotPoll.run w)))).
Proof.
  split; [|split]; intros w sched H.
  - apply guarded_loop_ready_first, guarded_run_ready_first, H.
  - apply plain_loop_ready_first, plain_run_ready_first, H.
  - apply dotpoll_loop_from_result, dotpoll_run_from_result, H.
Qed.

Lemma C7_render_only_after_readiness_witness :
  let answers := [job_created; not_ready_yet; ready_now; text_reply 200 sample_dot] in
  ready_first Guarded.API_BASE guarded_ready
    (events (event_loop Guarded.run_callback [0; 0]
               (call Guarded.run (fresh_page sample_repo answers))))
  /\ ready_first "" plain_ready
       (events (event_loop Plain.run_callback [0; 0]
                  (call Plain.run (fresh_page sample_repo answers))))
  /\ rendered_from_result DotPoll.RENDER_URL
       (events (event_loop DotPoll.run_callback [0; 0]
                  (call DotPoll.run
                     (fresh_page sample_repo
                        [job_created; text_reply 404 "Not Found";
                         text_reply 200 sample_dot])))).
Proof.
  destruct C7_render_only_after_readiness as (HG & HP & HD).
  split; [|split].
  - apply HG. simpl. exact I.
  - apply HP. simpl. exact I.
  - apply HD. simpl. exact I.
Defined.

(** C8.  Rendering the same graph description twice shows what rendering
    it once shows: the markup in the diagram, the status line and the
    markup of the image kept for export are the same after the second
    call as after the first.  (The element is a new node each time.)  In
    main.js [render] fetches the description, so "the same description"
    is: the same answer to both fetches. *)
Theorem C8_render_twice_shows_the_same :
  (forall (w : World) (job : JsVal) (o : FetchOutcome) (rest : list FetchOutcome),
      network w = o :: o :: rest ->
      visible (call (Guarded.render job) (call (Guarded.render job) w))
      = visible (call (Guarded.render job) w))
  /\ (forall (w : World) (job : JsVal) (o : FetchOutcome) (rest : list FetchOutcome),
         network w = o :: o :: rest ->
         visible (call (Plain.render job) (call (Plain.render job) w))
         = visible (call (Plain.render job) w))
  /\ (forall (w : World) (dot : string),
         tasks w = [] ->
         let once := event_loop DotPoll.run_callback [0]
                       (call (DotPoll.renderDot dot) w) in
         let twice := event_loop DotPoll.run_callback [0]
                        (call (DotPoll.renderDot dot) once) in
         visible twice = visible once /\ currentDot twice = currentDot once).
Proof.
  split; [|split].
  - intros w job o rest H. exact (guarded_render_twice job w o rest H).
  - intros w job o rest H. exact (plain_render_twice job w o rest H).
  - intros w dot H. exact (dotpoll_render_twice dot w H).
Qed.

Lemma C8_render_twice_shows_the_same_witness :
  let w := fresh_page sample_repo
             [text_reply 200 sample_dot; text_reply 200 sample_dot] in
  let once := call (Guarded.render (VStr "j1")) w in
  let twice := call (Guarded.render (VStr "j1")) once in
  (visible twice = visible once
   /\ visible once = (["<svg><title>digraph { a -> b }</title></svg>"],
                      "Done ✅",
                      Some "<svg><title>digraph { a -> b }</title></svg>")
   /\ currentSVG twice <> currentSVG once)
  /\ visible (call (Plain.render (VStr "j1")) (call (Plain.render (VStr "j1")) w))
     = visible (call (Plain.render (VStr "j1")) w)
  /\ visible (event_loop DotPoll.run_callback [0]
                (call (DotPoll.renderDot sample_dot)
                   (event_loop DotPoll.run_callback [0]
                      (call (DotPoll.renderDot sample_dot) (fresh_page "" [])))))
     = visible (event_loop DotPoll.run_callback [0]
                  (call (DotPoll.renderDot sample_dot) (fresh_page "" []))).
Proof.
  destruct C8_render_twice_shows_the_same as (HG & HP & HD).
  split; [split; [|split] | split].
  - apply (HG _ (VStr "j1") (text_reply 200 sample_dot) []). reflexivity.
  - reflexivity.
  - vm_compute. discriminate.
  - apply (HP _ (VStr "j1") (text_reply 200 sample_dot) []). reflexivity.
  - apply (HD (fresh_page "" []) sample_dot). reflexivity.
Defined.

(** C9 as stated fails on part_000: its submission goes to /run without a
    query, with the repository URL in a JSON body. *)
Lemma C9_part000_submits_in_the_request_body :
  posts (call DotPoll.run (fresh_page sample_repo [job_created]))
    = [body_submission DotPoll.RENDER_URL sample_repo]
  /\ posts (call DotPoll.run (fresh_page sample_repo [job_created]))
     <> [query_submission DotPoll.RENDER_URL sample_repo]
  /\ req_url (body_submission DotPoll.RENDER_URL sample_repo)
     = "https://arch-repoo.onrender.com/run"
  /\ req_body (body_submission DotPoll.RENDER_URL sample_repo) <> None.
Proof.
  split; [|split; [|split]].
  - vm_compute. reflexivity.
  - vm_compute. discriminate.
  - vm_compute. reflexivity.
  - vm_compute. discriminate.
Qed.

(** C9 (amended).  Take a repository URL that is not empty.  When it is
    a well-formed string (no unpaired surrogate), a run issues exactly one
    POST, whatever callbacks run afterwards.  In the three scripts of
    main.js it is POST <base>/run?repo_url=<url>, the URL encoded with
    [encodeURIComponent] and no body; the first script sends the trimmed
    URL, and only when it is not empty after trimming.  part_000 instead
    posts to <base>/run with the header Content-Type: application/json
    and the body [JSON.stringify({ repo_url: url })], for every value.
    In every script [job_id] is read from the decoded response (in the
    first script only under a success status) and is what the next
    request, or the text shown, is built from.  On a value with an
    unpaired surrogate [encodeURIComponent] throws, and the scripts of
    main.js issue no request. *)
Theorem C9_submission_request :
  (forall (w : World) (sched : list nat),
      trim (repo_value w) <> "" ->
      lone_surrogate (trim (repo_value w)) = false ->
      posts (event_loop Guarded.run_callback sched (call Guarded.run w))
      = query_submission Guarded.API_BASE (trim (repo_value w)) :: posts w)
  /\ (forall (w : World) (sched : list nat),
         repo_value w <> "" ->
         lone_surrogate (repo_value w) = false ->
         posts (event_loop Plain.run_callback sched (call Plain.run w))
         = query_submission "" (repo_value w) :: posts w)
  /\ (forall (w : World) (sched : list nat),
         repo_value w <> "" ->
         lone_surrogate (repo_value w) = false ->
         posts (event_loop JobId.run_callback sched (call JobId.run w))
         = query_submission JobId.API (repo_value w) :: posts w)
  /\ (forall (w : World) (sched : list nat),
         repo_value w <> "" ->
         posts (event_loop DotPoll.run_callback sched (call DotPoll.run w))
         = body_submission DotPoll.RENDER_URL (repo_value w) :: posts w)
  /\ (forall (w : World) (r : Response) (data job : JsVal),
         trim (repo_value w) <> "" ->
         lone_surrogate (trim (repo_value w)) = false ->
         network w = [Reply r] ->
         ok r = true ->
         body_json r = Some data ->
         getProp data "job_id" = inr job ->
         requests (call Guarded.run w)
         = GET (Guarded.API_BASE ++ "/status/" ++ toString job)
           :: query_submission Guarded.API_BASE (trim (repo_value w))
           :: requests w)
  /\ (forall (w : World) (r : Response) (data job : JsVal),
         repo_value w <> "" ->
         lone_surrogate (repo_value w) = false ->
         network w = [Reply r] ->
         body_json r = Some data ->
         getProp data "job_id" = inr job ->
         requests (call Plain.run w)
         = GET ("/status/" ++ toString job)
           :: query_submission "" (repo_value w) :: requests w
         /\ out_text (call JobId.run w) = "Job ID: " ++ toString job
         /\ requests (call DotPoll.run w)
            = GET (DotPoll.RENDER_URL ++ "/result/" ++ toString job ++ "/dot")
              :: body_submission DotPoll.RENDER_URL (repo_value w)
              :: requests w)
  /\ (forall (w : World),
         trim (repo_value w) <> "" ->
         lone_surrogate (trim (repo_value w)) = true ->
         requests (call Guarded.run w) = requests w
         /\ tasks (call Guarded.run w) = tasks w
         /\ status_text (call Guarded.run w) = "Failed to connect to backend.")
  /\ (forall (w : World),
         lone_surrogate (repo_value w) = true ->
         (requests (call Plain.run w) = requests w
          /\ tasks (call Plain.run w) = tasks w
          /\ uncaught (call Plain.run w)
             = URIError "URI malformed" :: uncaught w)
         /\ (requests (call JobId.run w) = requests w
             /\ tasks (call JobId.run w) = tasks w
             /\ uncaught (call JobId.run w)
                = URIError "URI malformed" :: uncaught w)).
Proof.
  repeat match goal with |- _ /\ _ => split end.
  - intros w sched H Hs.
    rewrite (loop_posts _ sched guarded_callback_posts).
    apply guarded_run_posts; assumption.
  - intros w sched _ Hs.
    rewrite (loop_posts _ sched plain_callback_posts).
    apply plain_run_posts, Hs.
  - intros w sched _ Hs.
    rewrite (loop_posts JobId.run_callback sched (fun cb w => eq_refl)).
    apply jobid_run_posts, Hs.
  - intros w sched _.
    rewrite (loop_posts _ sched dotpoll_callback_posts).
    apply dotpoll_run_posts.
  - intros w r data job Hne Hs Hnet Hok Hj Hp.
    exact (guarded_run_reads_job_id w r data job Hne Hs Hnet Hok Hj Hp).
  - intros w r data job _ Hs Hnet Hj Hp. split; [|split].
    + exact (plain_run_reads_job_id w r data job Hs Hnet Hj Hp).
    + exact (jobid_run_reads_job_id w r data job Hs Hnet Hj Hp).
    + exact (dotpoll_run_reads_job_id w r data job Hnet Hj Hp).
  - intros w Hne Hs.
    destruct (guarded_run_malformed w Hne Hs) as (Hst & Hev & _ & Ht).
    unfold requests. rewrite Hev. cbn. auto.
  - intros w Hs.
    rewrite (plain_run_malformed w Hs), (jobid_run_malformed w Hs).
    unfold requests, uncaught. cbn. auto 10.
Qed.

Lemma C9_submission_request_witness :
  let w := fresh_page "  https://github.com/a/b " [job_created] in
  let v := fresh_page sample_repo [job_created] in
  let m := fresh_page malformed_repo [job_created] in
  (trim (repo_value w) = sample_repo
   /\ posts (event_loop Guarded.run_callback [0] (call Guarded.run w))
      = [POST "https://arch-repoo.onrender.com/run?repo_url=https%3A%2F%2Fgithub.com%2Fa%2Fb"
           [] None]
   /\ requests (call Guarded.run w)
      = [GET "https://arch-repoo.onrender.com/status/j1";
         query_submission Guarded.API_BASE sample_repo])
  /\ posts (event_loop Plain.run_callback [0] (call Plain.run v))
     = [query_submission "" sample_repo]
  /\ posts (event_loop JobId.run_callback [0] (call JobId.run v))
     = [query_submission JobId.API sample_repo]
  /\ posts (event_loop DotPoll.run_callback [0] (call DotPoll.run v))
     = [body_submission DotPoll.RENDER_URL sample_repo]
  /\ out_text (call JobId.run v) = "Job ID: j1"
  /\ (requests (call Guarded.run m) = []
      /\ status_text (call Guarded.run m) = "Failed to connect to backend.")
  /\ (requests (call Plain.run m) = []
      /\ uncaught (call JobId.run m) = [URIError "URI malformed"]).
Proof.
  destruct C9_submission_request as (HG & HP & HJ & HD & HGj & Hj & HGm & Hm).
  split; [split; [|split] | split; [|split; [|split; [|split; [|split]]]]].
  - reflexivity.
  - apply (HG (fresh_page "  https://github.com/a/b " [job_created]) [0]).
    + vm_compute. discriminate.
    + reflexivity.
  - apply (HGj (fresh_page "  https://github.com/a/b " [job_created])
             {| status := 200; body_text := "";
                body_json := Some (VObj [("job_id", VStr "j1")]);
                content_type := "application/json" |}
             (VObj [("job_id", VStr "j1")]) (VStr "j1")).
    + vm_compute. discriminate.
    + reflexivity.
    + reflexivity.
    + reflexivity.
    + reflexivity.
    + reflexivity.
  - apply (HP (fresh_page sample_repo [job_created]) [0]).
    + vm_compute. discriminate.
    + reflexivity.
  - apply (HJ (fresh_page sample_repo [job_created]) [0]).
    + vm_compute. discriminate.
    + reflexivity.
  - apply (HD (fresh_page sample_repo [job_created]) [0]).
    vm_compute. discriminate.
  - apply (Hj (fresh_page sample_repo [job_created])
             {| status := 200; body_text := "";
                body_json := Some (VObj [("job_id", VStr "j1")]);
                content_type := "application/json" |}
             (VObj [("job_id", VStr "j1")]) (VStr "j1")).
    + vm_compute. discriminate.
    + reflexivity.
    + reflexivity.
    + reflexivity.
    + reflexivity.
  - destruct (HGm (fresh_page malformed_repo [job_created])) as (H1 & _ & H3).
    + vm_compute. discriminate.
    + reflexivity.
    + split; [exact H1 | exact H3].
  - destruct (Hm (fresh_page malformed_repo [job_created])) as ((H1 & _) & (_ & _ & H2)).
    + reflexivity.
    + split; [exact H1 | exact H2].
Defined.

(** C10.  An export operation, and every callback it leaves behind, keeps
    the current image, the current graph description and the diagram as
    they were.  In main.js, a run or a poll that does not enter [render]
    keeps them too: they change in [render] only. *)
Theorem C10_export_keeps_the_session :
  forall w : World,
    (session (call Guarded.downloadSVG w) = session w
     /\ session (call Guarded.downloadPNG w) = session w
     /\ (forall img url, session (call (Guarded.img_onload img url) w) = session w)
     /\ (forall blob url,
            session (call (Guarded.toBlob_callback blob url) w) = session w))
    /\ (session (call Plain.downloadSVG w) = session w
        /\ session (call Plain.downloadPNG w) = session w
        /\ (forall img url, session (call (Plain.img_onload img url) w) = session w)
        /\ (forall blob, session (call (Plain.toBlob_callback blob) w) = session w))
    /\ (session (call DotPoll.downloadSVG w) = session w
        /\ session (call DotPoll.downloadPNG w) = session w
        /\ (forall r, session (call (DotPoll.image_settled r) w) = session w))
    /\ (forall job,
           (render_calls (call Guarded.run w) = render_calls w ->
            session (call Guarded.run w) = session w)
           /\ (render_calls (call (Guarded.poll job) w) = render_calls w ->
               session (call (Guarded.poll job) w) = session w)
           /\ (render_calls (call Plain.run w) = render_calls w ->
               session (call Plain.run w) = session w)
           /\ (render_calls (call (Plain.poll job) w) = render_calls w ->
               session (call (Plain.poll job) w) = session w)).
Proof.
  intros w. split; [|split; [|split]].
  - apply guarded_export_frame.
  - apply plain_export_frame.
  - apply dotpoll_export_frame.
  - intros job.
    destruct (guarded_session_moves_in_render w job) as [H1 H2].
    destruct (plain_session_moves_in_render w job) as [H3 H4].
    auto.
Qed.

Lemma C10_export_keeps_the_session_witness :
  option_map outerHTML (currentSVG rendered_page)
    = Some "<svg><title>digraph { a -> b }</title></svg>"
  /\ session (call Guarded.downloadSVG rendered_page) = session rendered_page
  /\ session (call Guarded.downloadPNG rendered_page) = session rendered_page
  /\ downloads (event_loop Guarded.run_callback [0; 0]
                  (call Guarded.downloadPNG rendered_page))
     = [("architecture.png", {| blob_data := "PNG"; blob_type := "image/png" |})]
  /\ render_calls (call (Guarded.poll (VStr "j1")) waiting_page)
     = render_calls waiting_page
  /\ session (call (Guarded.poll (VStr "j1")) waiting_page) = session waiting_page.
Proof.
  pose proof (C10_export_keeps_the_session rendered_page) as (HG & _).
  pose proof (C10_export_keeps_the_session waiting_page) as (_ & _ & _ & Hm).
  assert (E : render_calls (call (Guarded.poll (VStr "j1")) waiting_page)
              = render_calls waiting_page) by (vm_compute; reflexivity).
  split; [|split; [|split; [|split; [|split]]]].
  - vm_compute. reflexivity.
  - exact (proj1 HG).
  - exact (proj1 (proj2 HG)).
  - vm_compute. reflexivity.
  - exact E.
  - exact (proj1 (proj2 (Hm (VStr "j1"))) E).
Defined.
